(** * Employee Benefits Compliance Tracker: KPI and aggregation logic

    A shallow embedding of [benefits_compliance_tracker.py]: the six tables
    as lists of records, the pandas expressions of the KPI block, the DuckDB
    queries of the aggregation block and the synthetic data generator, with
    the properties the specification states about them.

    Conventions of the embedding.
    - A data frame is the list of its rows, a row is a record with one field
      per column.  A cell that pandas would hold as NaN / NaT (and DuckDB as
      NULL) is [None].
    - A [datetime] is the number of microseconds since 1970-01-01 00:00
      (naive, as pandas stores it); [dt_date] is the [.dt.date] / [.date()]
      projection to a day number.
    - Python [int] values are [Z] (counts are lengths, converted with
      [Z.of_nat]).  Python [float] / numpy [float64] arithmetic is taken
      through the interface [Arith], which has two instances: exact rational
      arithmetic ([Q]) and IEEE 754 binary64 ([float], Rocq's primitive
      floats).  Every KPI is defined once, over the interface.
    - A Python expression that can raise [ZeroDivisionError] returns [py R]. *)

From Stdlib Require Import ZArith QArith Qround Qminmax Qabs Lqa List String Bool Lia Permutation.
From Stdlib Require Import PrimFloat Uint63 FloatOps SpecFloat DecimalString Sorted.
Import ListNotations.

Local Open Scope string_scope.
Local Open Scope Z_scope.

(* ------------------------------------------------------------------ *)
(** ** Arithmetic interface *)

Class Arith (R : Type) := {
  of_int : Z -> R;          (* int -> float conversion *)
  add : R -> R -> R;
  mul : R -> R -> R;
  div : R -> R -> R         (* float division, total: IEEE gives nan or inf *)
}.

#[export] Instance ArithQ : Arith Q := {
  of_int := inject_Z;
  add := Qplus;
  mul := Qmult;
  div := Qdiv
}.

Definition float_of_int (z : Z) : float :=
  if z <? 0 then PrimFloat.opp (PrimFloat.of_uint63 (Uint63.of_Z (- z)))
  else PrimFloat.of_uint63 (Uint63.of_Z z).

#[export] Instance ArithF : Arith float := {
  of_int := float_of_int;
  add := PrimFloat.add;
  mul := PrimFloat.mul;
  div := PrimFloat.div
}.

(* ------------------------------------------------------------------ *)
(** ** Effects: exceptions and the generator's state *)

Class Monad (M : Type -> Type) := {
  ret : forall {A}, A -> M A;
  bind : forall {A B}, M A -> (A -> M B) -> M B
}.

Notation "x <- m ;; k" := (bind m (fun x => k))
  (at level 61, m at next level, right associativity).

(** Result of a Python expression that may raise. *)
Inductive py (A : Type) : Type :=
| Value (a : A)
| ZeroDivisionError.
Arguments Value {A} a.
Arguments ZeroDivisionError {A}.

#[export] Instance py_monad : Monad py := {
  ret := @Value;
  bind := fun A B m k =>
    match m with
    | Value a => k a
    | ZeroDivisionError => ZeroDivisionError
    end
}.

(* ------------------------------------------------------------------ *)
(** ** Data model *)

Definition datetime := Z.
Definition usec_per_day : Z := 86400000000.

(** [.dt.date] of a timestamp, [.date()] of [datetime.now()]. *)
Definition dt_date (t : datetime) : Z := t / usec_per_day.

Record Department := {
  d_department_id : Z;
  d_department_name : string
}.

Record Employee := {
  e_employee_id : Z;
  e_first_name : string;
  e_last_name : string;
  e_email : string;
  e_department_id : Z;
  e_hire_date : datetime;
  e_employment_status : option string
}.

Record Plan := {
  p_plan_id : Z;
  p_plan_name : string;
  p_plan_type : string;
  p_premium_cost : Z;
  p_employer_contribution : Z
}.

Record Enrollment := {
  be_enrollment_id : Z;
  be_employee_id : Z;
  be_plan_id : Z;
  be_enrollment_date : option datetime;
  be_election_deadline : option datetime;
  be_plan_start_date : option datetime;
  be_enrollment_status : option string
}.

Record Eligibility := {
  el_eligibility_id : Z;
  el_employee_id : Z;
  el_eligibility_start_date : option datetime;
  el_eligibility_end_date : option datetime;
  el_benefit_category : string;
  el_is_active : Z
}.

Record ComplianceException := {
  ce_exception_id : Z;
  ce_employee_id : Z;
  ce_exception_type : string;
  ce_exception_date : option datetime;
  ce_severity_level : string;
  ce_resolution_status : option string;
  ce_resolved_date : option datetime
}.

(* ------------------------------------------------------------------ *)
(** ** pandas primitives used by the KPI block *)

(** [series == s]: a missing cell compares unequal to every string. *)
Definition cell_eq (c : option string) (s : string) : bool :=
  match c with
  | Some x => String.eqb x s
  | None => false
  end.

(** [series != s]: the negation, so a missing cell gives [True]. *)
Definition cell_ne (c : option string) (s : string) : bool :=
  negb (cell_eq c s).

(** [boolean_series.sum()]. *)
Fixpoint bool_sum (l : list bool) : Z :=
  match l with
  | [] => 0
  | b :: t => (if b then 1 else 0) + bool_sum t
  end.

(** [series.nunique()] on a key column. *)
Definition nunique (l : list Z) : Z := Z.of_nat (List.length (nodup Z.eq_dec l)).

(** [len(df)], [df.shape[0]]. *)
Definition len {A} (l : list A) : Z := Z.of_nat (List.length l).

(** [date_series < today] on the [.dt.date] of a timestamp column: a NaT
    cell compares [False]. *)
Definition date_lt (c : option datetime) (today : Z) : bool :=
  match c with
  | Some t => dt_date t <? today
  | None => false
  end.

(* ------------------------------------------------------------------ *)
(** ** KPIs in Python (lines 227-246) *)

Section KPI.
Context {R : Type} `{Arith R}.

(** Python [a / b] on two [int]s. *)
Definition py_truediv (a b : Z) : py R :=
  if b =? 0 then ZeroDivisionError else Value (div (of_int a) (of_int b)).

(** numpy [a / b] on two [int64] scalars: never raises. *)
Definition np_truediv (a b : Z) : R := div (of_int a) (of_int b).

Definition active_employees (employees_df : list Employee) : Z :=
  nunique (map e_employee_id
    (filter (fun e => cell_eq (e_employment_status e) "Active") employees_df)).

Definition enrolled_unique (enrollment_df : list Enrollment) : Z :=
  nunique (map be_employee_id
    (filter (fun r => cell_eq (be_enrollment_status r) "Enrolled") enrollment_df)).

Definition pendings (enrollment_df : list Enrollment) : Z :=
  bool_sum (map (fun r => cell_eq (be_enrollment_status r) "Pending") enrollment_df).

Definition enrollment_rate (employees_df : list Employee)
    (enrollment_df : list Enrollment) : py R :=
  if negb (active_employees employees_df =? 0) then
    q <- py_truediv (enrolled_unique enrollment_df) (active_employees employees_df) ;;
    Value (mul q (of_int 100))
  else Value (of_int 0).

Definition overdue_row (now : datetime) (r : Enrollment) : bool :=
  date_lt (be_election_deadline r) (dt_date now)
  && cell_ne (be_enrollment_status r) "Enrolled".

Definition overdue_count (now : datetime) (enrollment_df : list Enrollment) : Z :=
  len (filter (overdue_row now) enrollment_df).

Definition open_ex (exceptions_df : list ComplianceException) : Z :=
  bool_sum (map (fun x => cell_eq (ce_resolution_status x) "Open") exceptions_df).

Definition resolved_ex (exceptions_df : list ComplianceException) : Z :=
  bool_sum (map (fun x => cell_eq (ce_resolution_status x) "Resolved") exceptions_df).

Definition exception_resolution_rate (exceptions_df : list ComplianceException) : R :=
  if negb (open_ex exceptions_df + resolved_ex exceptions_df =? 0) then
    mul (np_truediv (resolved_ex exceptions_df)
                    (open_ex exceptions_df + resolved_ex exceptions_df))
        (of_int 100)
  else of_int 0.

Definition deadline_adherence_rate (now : datetime)
    (enrollment_df : list Enrollment) : py R :=
  if negb (len enrollment_df =? 0) then
    q <- py_truediv (len enrollment_df - overdue_count now enrollment_df)
                    (len enrollment_df) ;;
    Value (mul q (of_int 100))
  else Value (of_int 0).

(** [np.mean] of a list: the sum, accumulated from the left, divided by
    the number of elements. *)
Definition np_mean (l : list R) : R :=
  match l with
  | [] => div (of_int 0) (of_int 0)
  | x :: t => div (fold_left add t x) (of_int (len l))
  end.

Definition overall_compliance_score (now : datetime)
    (employees_df : list Employee) (enrollment_df : list Enrollment)
    (exceptions_df : list ComplianceException) : py R :=
  er <- enrollment_rate employees_df enrollment_df ;;
  dr <- deadline_adherence_rate now enrollment_df ;;
  Value (np_mean [er; exception_resolution_rate exceptions_df; dr]).

End KPI.

(* ------------------------------------------------------------------ *)
(** ** SQL over DataFrames with DuckDB (lines 188-223)

    A relation is the list of its rows.  The DOUBLE arithmetic of
    [q_dept_overview] is binary64; the [enrollment_rate] column holds the
    rational that the resulting DOUBLE denotes. *)

Definition cell_dec : forall a b : option string, {a = b} + {a <> b}.
Proof. decide equality. apply string_dec. Defined.

(** [ORDER BY]: a stable insertion sort; [before y x] says that [y] sorts
    strictly before [x].  (DuckDB leaves the order of ties open.) *)
Fixpoint insert_by {A} (before : A -> A -> bool) (x : A) (l : list A) : list A :=
  match l with
  | [] => [x]
  | y :: t => if before y x then y :: insert_by before x t else x :: y :: t
  end.

Definition order_by {A} (before : A -> A -> bool) (l : list A) : list A :=
  fold_right (insert_by before) [] l.

(** [l LEFT JOIN r ON on]. *)
Definition left_join {A B} (on : A -> B -> bool) (l : list A) (r : list B)
    : list (A * option B) :=
  flat_map (fun a =>
    match filter (on a) r with
    | [] => [(a, None)]
    | ms => map (fun b => (a, Some b)) ms
    end) l.

(** The non-NULL values of a column. *)
Fixpoint non_null {A} (l : list (option A)) : list A :=
  match l with
  | [] => []
  | Some a :: t => a :: non_null t
  | None :: t => non_null t
  end.

(** [COUNT(DISTINCT col)]. *)
Definition count_distinct (col : list (option Z)) : Z := nunique (non_null col).

(** [NULLIF(a, b)]. *)
Definition nullif (a b : Z) : option Z := if a =? b then None else Some a.

(** C's [round] on a binary64: to the nearest integer, halves away from
    zero.  Below 2^52 the sum with 2^52 is the nearest integer (ties to
    even), from which the floor and the fraction follow exactly; from 2^52
    on every binary64 is an integer. *)
Definition c_round (x : float) : float :=
  let a := PrimFloat.abs x in
  if PrimFloat.ltb a 0x1p52 then
    let n := PrimFloat.sub (PrimFloat.add a 0x1p52) 0x1p52 in
    let fl := if PrimFloat.ltb a n then PrimFloat.sub n 1 else n in
    let r := if PrimFloat.leb 0x1p-1 (PrimFloat.sub a fl)
             then PrimFloat.add fl 1 else fl in
    if PrimFloat.get_sign x then PrimFloat.opp r else r
  else x.

(** [ROUND(x, 2)] on a DOUBLE: DuckDB evaluates [round(x * 100) / 100] in
    binary64 and returns [x] when that is not finite. *)
Definition sql_round2 (x : float) : float :=
  let r := PrimFloat.div (c_round (PrimFloat.mul x 100)) 100 in
  if PrimFloat.is_nan r || PrimFloat.is_infinity r then x else r.

(** The rational that a finite binary64 denotes: mantissa times a power of
    two (0 for an infinity or a NaN, which have none). *)
Definition float_value (f : float) : Q :=
  match Prim2SF f with
  | S754_finite s m e =>
      let v := if s then Z.neg m else Z.pos m in
      if e <? 0 then v # Pos.pow 2 (Z.to_pos (- e)) else inject_Z (v * 2 ^ e)
  | _ => 0
  end.

(** The same rational in lowest terms. *)
Definition Q_of_float (f : float) : Q := Qred (float_value f).

(** [enr * 100.0 / total] then [ROUND(_, 2)]: the product with the DECIMAL
    literal is exact, the division and the rounding are in DOUBLE. *)
Definition rate_double (enr total : Z) : float :=
  sql_round2 (PrimFloat.div (float_of_int (enr * 100)) (float_of_int total)).

(** [ROUND(enr * 100.0 / NULLIF(total, 0), 2)]: NULL when [total] is 0,
    else the value of the DOUBLE. *)
Definition sql_enrollment_rate (enr total : Z) : option Q :=
  option_map (fun t => Q_of_float (rate_double enr t)) (nullif total 0).

Record StatusCount := {
  sc_enrollment_status : option string;
  sc_ct : Z
}.

Definition q_enrollment_status (benefits_enrollment : list Enrollment)
    : list StatusCount :=
  let col := map be_enrollment_status benefits_enrollment in
  order_by (fun y x => sc_ct x <? sc_ct y)
    (map (fun k => {| sc_enrollment_status := k;
                      sc_ct := Z.of_nat (count_occ cell_dec col k) |})
         (nodup cell_dec col)).

(** The [ct] that the status summary reports for status [s]; 0 when the
    summary has no row for it. *)
Definition status_ct (s : string) (q : list StatusCount) : Z :=
  match find (fun r => cell_eq (sc_enrollment_status r) s) q with
  | Some r => sc_ct r
  | None => 0
  end.

Record DeptOverview := {
  ov_department_name : string;
  ov_total_employees : Z;
  ov_enrolled_employees : Z;
  ov_enrollment_rate : option Q;
  ov_open_exceptions : Z
}.

(** The CTE [enrolled]. *)
Definition enrolled (benefits_enrollment : list Enrollment) : list Z :=
  nodup Z.eq_dec (map be_employee_id
    (filter (fun r => cell_eq (be_enrollment_status r) "Enrolled") benefits_enrollment)).

(** A row of the three chained LEFT JOINs: [d], [e], [en], [ce]. *)
Definition Joined : Type :=
  ((Department * option Employee) * option Z) * option ComplianceException.

Definition j_d (j : Joined) : Department := fst (fst (fst j)).
Definition j_e (j : Joined) : option Employee := snd (fst (fst j)).
Definition j_en (j : Joined) : option Z := snd (fst j).
Definition j_ce (j : Joined) : option ComplianceException := snd j.

Definition on_employee {B} (key : B -> Z) (oe : option Employee) (b : B) : bool :=
  match oe with
  | Some e => e_employee_id e =? key b
  | None => false
  end.

Definition dept_joined (departments : list Department) (employees : list Employee)
    (benefits_enrollment : list Enrollment)
    (compliance_exceptions : list ComplianceException) : list Joined :=
  left_join (fun de ce => on_employee ce_employee_id (snd (fst de)) ce)
    (left_join (fun de en => on_employee (fun i : Z => i) (snd de) en)
      (left_join (fun d e => d_department_id d =? e_department_id e)
         departments employees)
      (enrolled benefits_enrollment))
    compliance_exceptions.

(** [CASE WHEN ce.resolution_status = 'Open' THEN ce.exception_id END]. *)
Definition open_exception_id (j : Joined) : option Z :=
  match j_ce j with
  | Some ce => if cell_eq (ce_resolution_status ce) "Open"
               then Some (ce_exception_id ce) else None
  | None => None
  end.

(** The aggregates of one group. *)
Definition dept_row (name : string) (g : list Joined) : DeptOverview :=
  let total := count_distinct (map (fun j => option_map e_employee_id (j_e j)) g) in
  let enr := count_distinct (map j_en g) in
  {| ov_department_name := name;
     ov_total_employees := total;
     ov_enrolled_employees := enr;
     ov_enrollment_rate := sql_enrollment_rate enr total;
     ov_open_exceptions := count_distinct (map open_exception_id g) |}.

(** [ORDER BY enrollment_rate DESC NULLS LAST]. *)
Definition rate_before (y x : DeptOverview) : bool :=
  match ov_enrollment_rate y, ov_enrollment_rate x with
  | Some a, Some b => negb (Qle_bool a b)
  | Some _, None => true
  | None, _ => false
  end.

(** [GROUP BY d.department_name]: the joined rows of one group. *)
Definition dept_group (js : list Joined) (name : string) : list Joined :=
  filter (fun j => String.eqb (d_department_name (j_d j)) name) js.

Definition q_dept_overview (departments : list Department) (employees : list Employee)
    (benefits_enrollment : list Enrollment)
    (compliance_exceptions : list ComplianceException) : list DeptOverview :=
  let js := dept_joined departments employees benefits_enrollment compliance_exceptions in
  order_by rate_before
    (map (fun name => dept_row name (dept_group js name))
         (nodup string_dec (map (fun j => d_department_name (j_d j)) js))).

(* ------------------------------------------------------------------ *)
(** ** Synthetic data (lines 38-39 and 77-153)

    The generator draws from numpy's global random state and reads the
    wall clock.  numpy's generator is not part of the script, so it is taken
    as an interface: [rs_seed] is [np.random.seed], [rs_choice n size replace p]
    draws indices into a population of [n] elements ([size = None] is the
    scalar form of [np.random.choice]), [rs_randint lo hi] is
    [np.random.randint(lo, hi)].  The clock is the sequence of values that
    the successive calls of [datetime.now()] return. *)

Record RandomState := {
  rs_state : Type;
  rs_seed : Z -> rs_state;
  rs_choice : nat -> option nat -> bool -> option (list Q) -> rs_state -> list nat * rs_state;
  rs_randint : Z -> Z -> rs_state -> Z * rs_state
}.

Definition Gen (S A : Type) : Type := S -> A * S.

#[export] Instance gen_monad (S : Type) : Monad (Gen S) := {
  ret := fun A a s => (a, s);
  bind := fun A B m k s => let (a, s') := m s in k a s'
}.

(** A [for] loop that appends to a list of records. *)
Fixpoint for_each {S A B} (l : list A) (body : A -> list B -> Gen S (list B))
    (records : list B) : Gen S (list B) :=
  match l with
  | [] => ret records
  | x :: t => records' <- body x records ;; for_each t body records'
  end.

(** [timedelta(days=d)]. *)
Definition timedelta_days (d : Z) : Z := d * usec_per_day.

Definition SEED : Z := 42.
Definition n_employees : nat := 150.

Definition departments_df : list Department :=
  [ {| d_department_id := 1; d_department_name := "Human Resources" |};
    {| d_department_id := 2; d_department_name := "Finance" |};
    {| d_department_id := 3; d_department_name := "Engineering" |};
    {| d_department_id := 4; d_department_name := "Sales" |};
    {| d_department_id := 5; d_department_name := "Operations" |} ].

Definition plans_df : list Plan :=
  [ {| p_plan_id := 1; p_plan_name := "Basic Medical"; p_plan_type := "Medical";
       p_premium_cost := 300; p_employer_contribution := 150 |};
    {| p_plan_id := 2; p_plan_name := "Premium Medical"; p_plan_type := "Medical";
       p_premium_cost := 600; p_employer_contribution := 400 |};
    {| p_plan_id := 3; p_plan_name := "Dental Plus"; p_plan_type := "Dental";
       p_premium_cost := 75; p_employer_contribution := 40 |};
    {| p_plan_id := 4; p_plan_name := "Vision Coverage"; p_plan_type := "Vision";
       p_premium_cost := 50; p_employer_contribution := 25 |};
    {| p_plan_id := 5; p_plan_name := "401k Plan"; p_plan_type := "Retirement";
       p_premium_cost := 150; p_employer_contribution := 100 |} ].

(** [pd.date_range('2018-01-01', periods=n, freq='W')]: the Sundays from
    2018-01-07, which is day 17538. *)
Definition hire_date (i : nat) : datetime := (17538 + 7 * Z.of_nat i) * usec_per_day.

(** [f"user{i}@example.com"]. *)
Definition email_of (i : nat) : string :=
  "user" ++ NilZero.string_of_uint (Nat.to_uint i) ++ "@example.com".

Record Tables := {
  t_employees : list Employee;
  t_departments : list Department;
  t_plans : list Plan;
  t_enrollment : list Enrollment;
  t_eligibility : list Eligibility;
  t_exceptions : list ComplianceException
}.

Section Synthesize.
Variable rs : RandomState.
Variable clock : nat -> datetime.

(** The random state and the number of clock readings taken so far. *)
Definition World : Type := rs_state rs * nat.

(** [datetime.now()]. *)
Definition now : Gen World datetime :=
  fun w => (clock (snd w), (fst w, S (snd w))).

(** [np.random.choice(a, size, replace, p)]. *)
Definition choice {A} (d : A) (a : list A) (size : nat) (replace : bool)
    (p : option (list Q)) : Gen World (list A) :=
  fun w =>
    let (ix, g) := rs_choice rs (List.length a) (Some size) replace p (fst w) in
    (map (fun i => nth i a d) ix, (g, snd w)).

(** [np.random.choice(a, p=p)]. *)
Definition choice1 {A} (d : A) (a : list A) (p : option (list Q)) : Gen World A :=
  fun w =>
    let (ix, g) := rs_choice rs (List.length a) None true p (fst w) in
    (nth (hd 0%nat ix) a d, (g, snd w)).

(** [np.random.randint(lo, hi)]. *)
Definition randint (lo hi : Z) : Gen World Z :=
  fun w => let (z, g) := rs_randint rs lo hi (fst w) in (z, (g, snd w)).

Definition gen_employees : Gen World (list Employee) :=
  first_name <- choice ""
    ["John"; "Jane"; "Michael"; "Sarah"; "Robert"; "Emily"; "James"; "Lisa"]
    n_employees true None ;;
  last_name <- choice ""
    ["Smith"; "Johnson"; "Williams"; "Brown"; "Jones"; "Garcia"; "Miller"; "Davis"]
    n_employees true None ;;
  department_id <- choice 0 (map d_department_id departments_df)
    n_employees true None ;;
  employment_status <- choice "" ["Active"; "Inactive"]
    n_employees true (Some [85 # 100; 15 # 100]%Q) ;;
  ret (map (fun i =>
         {| e_employee_id := Z.of_nat (i + 1);
            e_first_name := nth i first_name "";
            e_last_name := nth i last_name "";
            e_email := email_of (i + 1);
            e_department_id := nth i department_id 0;
            e_hire_date := hire_date i;
            e_employment_status := Some (nth i employment_status "") |})
       (seq 0 n_employees)).

Definition enroll_plan (emp_id plan_id : Z) (records : list Enrollment)
    : Gen World (list Enrollment) :=
  t <- now ;;
  days <- randint 30 365 ;;
  let enrollment_date := t - timedelta_days days in
  let election_deadline := enrollment_date + timedelta_days 30 in
  enrollment_status <- choice1 "" ["Enrolled"; "Pending"; "Declined"]
    (Some [80 # 100; 15 # 100; 5 # 100]%Q) ;;
  ret (records ++
       [ {| be_enrollment_id := len records + 1;
            be_employee_id := emp_id;
            be_plan_id := plan_id;
            be_enrollment_date := Some enrollment_date;
            be_election_deadline := Some election_deadline;
            be_plan_start_date :=
              if String.eqb enrollment_status "Enrolled"
              then Some (enrollment_date + timedelta_days 60) else None;
            be_enrollment_status := Some enrollment_status |} ])%list.

Definition enroll_employee (e : Employee) (records : list Enrollment)
    : Gen World (list Enrollment) :=
  if cell_eq (e_employment_status e) "Active" then
    num_plans <- randint 2 5 ;;
    plan_ids <- choice 0 (map p_plan_id plans_df) (Z.to_nat num_plans) false None ;;
    for_each plan_ids (enroll_plan (e_employee_id e)) records
  else ret records.

Definition eligibility_row (row : Employee) (elig_records : list Eligibility)
    : Gen World (list Eligibility) :=
  let active := cell_eq (e_employment_status row) "Active" in
  end_date <- (if active then ret None
               else t <- now ;; ret (Some (t + timedelta_days 30))) ;;
  ret (elig_records ++
       [ {| el_eligibility_id := e_employee_id row;
            el_employee_id := e_employee_id row;
            el_eligibility_start_date := Some (e_hire_date row);
            el_eligibility_end_date := end_date;
            el_benefit_category := "All_Benefits";
            el_is_active := if active then 1 else 0 |} ])%list.

Definition exception_row (emp_id : Z) (exc_records : list ComplianceException)
    : Gen World (list ComplianceException) :=
  exception_type <- choice1 ""
    ["Missed Enrollment"; "Late Election"; "Missing Documentation"; "Incorrect Data"]
    None ;;
  t <- now ;;
  days <- randint 0 90 ;;
  let exception_date := t - timedelta_days days in
  resolution_status <- choice1 "" ["Open"; "Resolved"] (Some [6 # 10; 4 # 10]%Q) ;;
  severity_level <- choice1 "" ["Critical"; "High"; "Medium"; "Low"] None ;;
  resolved_date <-
    (if String.eqb resolution_status "Resolved"
     then d <- randint 1 30 ;; ret (Some (exception_date + timedelta_days d))
     else ret None) ;;
  ret (exc_records ++
       [ {| ce_exception_id := len exc_records + 1;
            ce_employee_id := emp_id;
            ce_exception_type := exception_type;
            ce_exception_date := Some exception_date;
            ce_severity_level := severity_level;
            ce_resolution_status := Some resolution_status;
            ce_resolved_date := resolved_date |} ])%list.

Definition gen_tables : Gen World Tables :=
  employees_df <- gen_employees ;;
  enrollment_df <- for_each employees_df enroll_employee [] ;;
  eligibility_df <- for_each employees_df eligibility_row [] ;;
  emp_ids <- choice 0 (map e_employee_id employees_df) 20 false None ;;
  exceptions_df <- for_each emp_ids exception_row [] ;;
  ret {| t_employees := employees_df;
         t_departments := departments_df;
         t_plans := plans_df;
         t_enrollment := enrollment_df;
         t_eligibility := eligibility_df;
         t_exceptions := exceptions_df |}.

(** One run of the script in synthesize mode: [np.random.seed(SEED)], then
    the six tables. *)
Definition synthesize : Tables := fst (gen_tables (rs_seed rs SEED, 0%nat)).

End Synthesize.

(** A small concrete random state, to run the generator: a counter that
    walks through the population. *)
Definition counter_rs : RandomState := {|
  rs_state := nat;
  rs_seed := Z.to_nat;
  rs_choice := fun n size _ _ g =>
    (map (fun i => ((g + i) mod n)%nat)
         (seq 0 (match size with Some k => k | None => 1%nat end)), S g);
  rs_randint := fun lo hi g => (lo + Z.of_nat g mod (hi - lo), S g)
|}.

(* ------------------------------------------------------------------ *)
(** ** The specification's wording of the KPI inputs *)

(** An enrollment row is overdue when its election deadline is strictly
    before the current date and its status is not Enrolled. *)
Definition Overdue (now : datetime) (r : Enrollment) : Prop :=
  (exists t, be_election_deadline r = Some t /\ dt_date t < dt_date now)
  /\ be_enrollment_status r <> Some "Enrolled".

(** The enrollment rows with a given status, the exception rows with a
    given resolution status, the employees with a given employment status. *)
Definition has_cell (c : option string) (s : string) : bool :=
  if cell_dec c (Some s) then true else false.

Definition enrollments_with (s : string) (enrollment_df : list Enrollment) :=
  filter (fun r => has_cell (be_enrollment_status r) s) enrollment_df.

Definition exceptions_with (s : string) (exceptions_df : list ComplianceException) :=
  filter (fun x => has_cell (ce_resolution_status x) s) exceptions_df.

(** [ids] lists, without repetition, the active employees. *)
Definition lists_active (employees_df : list Employee) (ids : list Z) : Prop :=
  NoDup ids /\
  forall i, In i ids <->
    exists e, In e employees_df /\ e_employment_status e = Some "Active"
              /\ e_employee_id e = i.

(** [ids] lists, without repetition, the employee ids that have at least
    one Enrolled row. *)
Definition lists_enrolled (enrollment_df : list Enrollment) (ids : list Z) : Prop :=
  NoDup ids /\
  forall i, In i ids <->
    exists r, In r enrollment_df /\ be_enrollment_status r = Some "Enrolled"
              /\ be_employee_id r = i.

(** [ids] lists, without repetition, the active employees that have at
    least one Enrolled row: the numerator as the specification words it. *)
Definition lists_active_enrolled (employees_df : list Employee)
    (enrollment_df : list Enrollment) (ids : list Z) : Prop :=
  NoDup ids /\
  forall i, In i ids <->
    (exists e, In e employees_df /\ e_employment_status e = Some "Active"
               /\ e_employee_id e = i)
    /\ (exists r, In r enrollment_df /\ be_enrollment_status r = Some "Enrolled"
                  /\ be_employee_id r = i).

(** Employee id [i] belongs to an employee of a department named [name]. *)
Definition dept_employee (departments : list Department) (employees : list Employee)
    (name : string) (i : Z) : Prop :=
  exists d e, In d departments /\ In e employees
              /\ d_department_name d = name
              /\ d_department_id d = e_department_id e
              /\ e_employee_id e = i.

(** Employee id [i] has at least one Enrolled row. *)
Definition has_enrolled_row (benefits_enrollment : list Enrollment) (i : Z) : Prop :=
  exists r, In r benefits_enrollment /\ be_enrollment_status r = Some "Enrolled"
            /\ be_employee_id r = i.





(** The exception rows that are Open or Resolved. *)
Definition open_or_resolved (x : ComplianceException) : bool :=
  cell_eq (ce_resolution_status x) "Open"
  || cell_eq (ce_resolution_status x) "Resolved".

(** The rate computed from two counts, with the guard on the denominator. *)
Definition rate_of {R} `{Arith R} (num den : Z) : R :=
  if den =? 0 then of_int 0 else mul (div (of_int num) (of_int den)) (of_int 100).

(* ------------------------------------------------------------------ *)
(** ** Rows and tables used in the examples *)

Definition mk_employee (i d : Z) (s : string) : Employee :=
  {| e_employee_id := i; e_first_name := "Jane"; e_last_name := "Smith";
     e_email := "user@example.com"; e_department_id := d;
     e_hire_date := hire_date 0; e_employment_status := Some s |}.

Definition mk_enrollment (i e p : Z) (deadline : option datetime) (s : string)
    : Enrollment :=
  {| be_enrollment_id := i; be_employee_id := e; be_plan_id := p;
     be_enrollment_date := None; be_election_deadline := deadline;
     be_plan_start_date := None; be_enrollment_status := Some s |}.

Definition mk_exception (i e : Z) (s : option string) : ComplianceException :=
  {| ce_exception_id := i; ce_employee_id := e; ce_exception_type := "Late Election";
     ce_exception_date := None; ce_severity_level := "Low";
     ce_resolution_status := s; ce_resolved_date := None |}.

(** 2026-11-03 12:00 and the day before. *)
Definition a_now : datetime := 20760 * usec_per_day + 43200000000.
Definition a_past : datetime := 20759 * usec_per_day.

(** One active employee, one inactive employee who holds an Enrolled row. *)
Definition two_employees : list Employee :=
  [mk_employee 1 1 "Active"; mk_employee 2 1 "Inactive"].
Definition inactive_enrolled : list Enrollment :=
  [mk_enrollment 1 2 1 None "Enrolled"].

(** Nine active employees; one Enrolled row and eight overdue Pending rows;
    one Resolved and eight Open exceptions. *)
Definition nine_employees : list Employee :=
  map (fun i => mk_employee (Z.of_nat i) 1 "Active") (seq 1 9).
Definition nine_enrollments : list Enrollment :=
  mk_enrollment 1 1 1 (Some a_past) "Enrolled"
  :: map (fun i => mk_enrollment (Z.of_nat i) (Z.of_nat i) 1 (Some a_past) "Pending")
         (seq 2 8).
Definition nine_exceptions : list ComplianceException :=
  mk_exception 1 1 (Some "Resolved")
  :: map (fun i => mk_exception (Z.of_nat i) (Z.of_nat i) (Some "Open")) (seq 2 8).

(** A department without employees next to a staffed one. *)
Definition two_departments : list Department :=
  [ {| d_department_id := 1; d_department_name := "Finance" |};
    {| d_department_id := 2; d_department_name := "Sales" |} ].

(** Three employees of one department, one of them enrolled. *)
Definition three_employees : list Employee :=
  [mk_employee 1 1 "Active"; mk_employee 2 1 "Active"; mk_employee 3 1 "Active"].
Definition one_enrolled : list Enrollment :=
  [mk_enrollment 1 1 1 None "Enrolled"].

(** Exceptions with a third resolution status and a missing one. *)
Definition mixed_exceptions : list ComplianceException :=
  [ mk_exception 1 1 (Some "Open"); mk_exception 2 1 (Some "Resolved");
    mk_exception 3 2 (Some "Escalated"); mk_exception 4 2 None ].

(** Two clocks one day apart. *)
Definition clock_a (k : nat) : datetime := a_now + Z.of_nat k.
Definition clock_b (k : nat) : datetime := a_now + usec_per_day + Z.of_nat k.

(** The tables with every date that the generator derives from
    [datetime.now()] moved by [delta] microseconds. *)
Definition shift_date (delta : Z) (c : option datetime) : option datetime :=
  option_map (fun t => t + delta) c.

Definition shift_enrollment (delta : Z) (r : Enrollment) : Enrollment :=
  {| be_enrollment_id := be_enrollment_id r;
     be_employee_id := be_employee_id r;
     be_plan_id := be_plan_id r;
     be_enrollment_date := shift_date delta (be_enrollment_date r);
     be_election_deadline := shift_date delta (be_election_deadline r);
     be_plan_start_date := shift_date delta (be_plan_start_date r);
     be_enrollment_status := be_enrollment_status r |}.

Definition shift_eligibility (delta : Z) (r : Eligibility) : Eligibility :=
  {| el_eligibility_id := el_eligibility_id r;
     el_employee_id := el_employee_id r;
     el_eligibility_start_date := el_eligibility_start_date r;
     el_eligibility_end_date := shift_date delta (el_eligibility_end_date r);
     el_benefit_category := el_benefit_category r;
     el_is_active := el_is_active r |}.

Definition shift_exception (delta : Z) (x : ComplianceException)
    : ComplianceException :=
  {| ce_exception_id := ce_exception_id x;
     ce_employee_id := ce_employee_id x;
     ce_exception_type := ce_exception_type x;
     ce_exception_date := shift_date delta (ce_exception_date x);
     ce_severity_level := ce_severity_level x;
     ce_resolution_status := ce_resolution_status x;
     ce_resolved_date := shift_date delta (ce_resolved_date x) |}.

Definition shift_tables (delta : Z) (T : Tables) : Tables :=
  {| t_employees := t_employees T;
     t_departments := t_departments T;
     t_plans := t_plans T;
     t_enrollment := map (shift_enrollment delta) (t_enrollment T);
     t_eligibility := map (shift_eligibility delta) (t_eligibility T);
     t_exceptions := map (shift_exception delta) (t_exceptions T) |}.

(** [np.random.choice(a, size, replace=False)] returns [size] elements. *)
Definition choice_has_size (rs : RandomState) : Prop :=
  forall n size replace p g,
    List.length (fst (rs_choice rs n (Some size) replace p g)) = size.

(** The tables of one run in terms of another run's.  A row that holds a
    date taken from [datetime.now()] was written at one reading of the
    clock: [retime] moves the dates of the row written at reading [k] by
    [delta k], counting the readings from [k] on, and leaves a row without
    such a date as it is. *)
Fixpoint retime {B} (date : B -> option datetime) (shift : Z -> B -> B)
    (delta : nat -> Z) (k : nat) (l : list B) : list B :=
  match l with
  | [] => []
  | r :: t =>
      match date r with
      | Some _ => shift (delta k) r :: retime date shift delta (S k) t
      | None => r :: retime date shift delta k t
      end
  end.

(** The number of rows that hold such a date. *)
Definition dated {B} (date : B -> option datetime) (l : list B) : nat :=
  List.length (non_null (map date l)).

(** The readings of the clock behind each table: one per enrollment date,
    one per eligibility end date, one per exception date. *)
Definition enrollment_reads (T : Tables) : nat :=
  dated be_enrollment_date (t_enrollment T).

Definition eligibility_reads (T : Tables) : nat :=
  dated el_eligibility_end_date (t_eligibility T).

Definition exception_reads (T : Tables) : nat :=
  dated ce_exception_date (t_exceptions T).

Definition retime_tables (delta : nat -> Z) (T : Tables) : Tables :=
  {| t_employees := t_employees T;
     t_departments := t_departments T;
     t_plans := t_plans T;
     t_enrollment :=
       retime be_enrollment_date shift_enrollment delta 0 (t_enrollment T);
     t_eligibility :=
       retime el_eligibility_end_date shift_eligibility delta
         (enrollment_reads T) (t_eligibility T);
     t_exceptions :=
       retime ce_exception_date shift_exception delta
         (enrollment_reads T + eligibility_reads T) (t_exceptions T) |}.

(** The number of calls of [datetime.now()] in one run of the generator:
    the count of readings in the world that [gen_tables] ends in. *)
Definition clock_reads (rs : RandomState) : nat :=
  snd (snd (gen_tables rs (fun _ => 0) (rs_seed rs SEED, 0%nat))).

(** A clock that agrees with [clock_a] for as long as the generator reads
    it, and with [clock_b] afterwards. *)
Definition clock_c (k : nat) : datetime :=
  if (k <? clock_reads counter_rs)%nat then clock_a k else clock_b k.

(* ------------------------------------------------------------------ *)
(** ** The overdue elections query (lines 195-204) *)

Record OverdueRow := {
  od_employee_id : Z;
  od_employee_name : string;
  od_department_name : string;
  od_plan_id : Z;
  od_enrollment_date : option datetime;
  od_election_deadline : option datetime
}.

(** [l JOIN r ON on]. *)
Definition inner_join {A B} (on : A -> B -> bool) (l : list A) (r : list B)
    : list (A * B) :=
  flat_map (fun a => map (fun b => (a, b)) (filter (on a) r)) l.

(** [ts < CURRENT_DATE] in a WHERE clause: the date is cast to the
    timestamp of its midnight; a NULL timestamp does not pass. *)
Definition before_current_date (c : option datetime) (today : Z) : bool :=
  match c with
  | Some t => t <? today * usec_per_day
  | None => false
  end.

(** [col <> s] in a WHERE clause: a NULL cell does not pass. *)
Definition sql_ne (c : option string) (s : string) : bool :=
  match c with
  | Some x => negb (String.eqb x s)
  | None => false
  end.

(** [ORDER BY election_deadline], ascending, NULLs last. *)
Definition deadline_before (y x : OverdueRow) : bool :=
  match od_election_deadline y, od_election_deadline x with
  | Some a, Some b => a <? b
  | Some _, None => true
  | None, _ => false
  end.

Definition overdue_select (j : (Employee * Enrollment) * Department) : OverdueRow :=
  let e := fst (fst j) in
  let be := snd (fst j) in
  let d := snd j in
  {| od_employee_id := e_employee_id e;
     od_employee_name := e_first_name e ++ " " ++ e_last_name e;
     od_department_name := d_department_name d;
     od_plan_id := be_plan_id be;
     od_enrollment_date := be_enrollment_date be;
     od_election_deadline := be_election_deadline be |}.

Definition overdue_where (today : Z) (j : (Employee * Enrollment) * Department) : bool :=
  before_current_date (be_election_deadline (snd (fst j))) today
  && sql_ne (be_enrollment_status (snd (fst j))) "Enrolled".

(** [today] is the value of [CURRENT_DATE]. *)
Definition q_overdue (today : Z) (employees : list Employee)
    (benefits_enrollment : list Enrollment) (departments : list Department)
    : list OverdueRow :=
  order_by deadline_before
    (map overdue_select
      (filter (overdue_where today)
        (inner_join (fun eb d => e_department_id (fst eb) =? d_department_id d)
          (inner_join (fun e be => e_employee_id e =? be_employee_id be)
             employees benefits_enrollment)
          departments))).

(** [q_overdue.head(25)]: the overdue rows that the HTML report shows
    (line 300). *)
Definition report_overdue (q : list OverdueRow) : list OverdueRow := firstn 25 q.

(** Orders on nullable sort keys, NULLs last. *)
Definition deadline_le (a b : option datetime) : Prop :=
  match a, b with
  | Some s, Some t => s <= t
  | None, Some _ => False
  | _, None => True
  end.

Definition rate_ge (a b : option Q) : Prop :=
  match a, b with
  | Some x, Some y => (y <= x)%Q
  | None, Some _ => False
  | _, None => True
  end.

(** The sum of the [ct] column of the status summary. *)
Definition total_ct (q : list StatusCount) : Z :=
  fold_right Z.add 0 (map sc_ct q).

(** Exception id [i] is an Open exception of an employee of a department
    named [name]. *)
Definition dept_open_exception (departments : list Department)
    (employees : list Employee) (compliance_exceptions : list ComplianceException)
    (name : string) (i : Z) : Prop :=
  exists ce, In ce compliance_exceptions
             /\ ce_resolution_status ce = Some "Open"
             /\ ce_exception_id ce = i
             /\ dept_employee departments employees name (ce_employee_id ce).

(* ------------------------------------------------------------------ *)
(** ** What the generated rows look like *)

(** The election deadline is 30 days after the enrollment date; the plan
    start date is 60 days after it for an Enrolled row and missing for any
    other. *)
Definition enrollment_dates_ok (r : Enrollment) : Prop :=
  exists d s,
    be_enrollment_date r = Some d
    /\ be_election_deadline r = Some (d + timedelta_days 30)
    /\ be_enrollment_status r = Some s
    /\ be_plan_start_date r
       = if String.eqb s "Enrolled" then Some (d + timedelta_days 60) else None.

(** The row belongs to an active employee of the employees table. *)
Definition enrollment_of_active (employees : list Employee) (r : Enrollment) : Prop :=
  exists e, In e employees /\ e_employment_status e = Some "Active"
            /\ e_employee_id e = be_employee_id r.

(** The resolved date is set, to some days after the exception date, for a
    Resolved exception and missing for any other. *)
Definition exception_dates_ok (x : ComplianceException) : Prop :=
  exists d s,
    ce_exception_date x = Some d
    /\ ce_resolution_status x = Some s
    /\ if String.eqb s "Resolved"
       then exists k, ce_resolved_date x = Some (d + timedelta_days k)
       else ce_resolved_date x = None.

(** [np.random.randint(lo, hi)] returns a value from [lo] up to, and not
    including, [hi]. *)
Definition randint_in_range (rs : RandomState) : Prop :=
  forall lo hi g, lo < hi -> lo <= fst (rs_randint rs lo hi g) < hi.

(** The resolved date of a Resolved exception is 1 to 29 days after its
    exception date; any other exception has none. *)
Definition resolved_after (x : ComplianceException) : Prop :=
  exists d s,
    ce_exception_date x = Some d
    /\ ce_resolution_status x = Some s
    /\ if String.eqb s "Resolved"
       then exists k, 1 <= k < 30
                      /\ ce_resolved_date x = Some (d + timedelta_days k)
       else ce_resolved_date x = None.

(** The eligibility row of employee [e]. *)
Definition eligibility_of (e : Employee) (r : Eligibility) : Prop :=
  el_eligibility_id r = e_employee_id e
  /\ el_employee_id r = e_employee_id e
  /\ el_eligibility_start_date r = Some (e_hire_date e)
  /\ el_benefit_category r = "All_Benefits"
  /\ if cell_eq (e_employment_status e) "Active"
     then el_eligibility_end_date r = None /\ el_is_active r = 1
     else (exists t, el_eligibility_end_date r = Some t) /\ el_is_active r = 0.

(** The ids of a table are 1, 2, ..., in row order. *)
Definition sequential_ids (ids : list Z) : Prop :=
  ids = map Z.of_nat (seq 1 (List.length ids)).

(** [np.random.choice] draws positions inside a non-empty population. *)
Definition choice_in_range (rs : RandomState) : Prop :=
  forall n size replace p g,
    (0 < n)%nat ->
    Forall (fun i => (i < n)%nat) (fst (rs_choice rs n size replace p g)).

(* ------------------------------------------------------------------ *)
(** ** Proof steps for the generator *)

(** Name the result of the next draw from the random state. *)
Ltac draw :=
  match goal with
  | |- context [rs_randint ?rs ?lo ?hi ?g] =>
      destruct (rs_randint rs lo hi g) as [? ?]
  | |- context [rs_choice ?rs ?n ?s ?r ?p ?g] =>
      destruct (rs_choice rs n s r p g) as [? ?]
  end; cbn [bind ret gen_monad fst snd].

(** Two records that differ in their dates only, by a regrouping of sums. *)
Ltac shifted_dates := f_equal; try reflexivity; f_equal; lia.

(* ================================================================== *)
(** * Properties *)

(** ** Counting lemmas *)

Lemma cell_eq_true (c : option string) (s : string) :
  cell_eq c s = true <-> c = Some s.
Proof.
  destruct c as [x|]; simpl.
  - rewrite String.eqb_eq. split; intros E; [now subst | now inversion E].
  - split; discriminate.
Qed.

Lemma cell_eq_has_cell (c : option string) (s : string) :
  cell_eq c s = has_cell c s.
Proof.
  unfold has_cell. destruct (cell_dec c (Some s)) as [E|N].
  - now apply cell_eq_true.
  - destruct (cell_eq c s) eqn:E; [|reflexivity].
    apply cell_eq_true in E. contradiction.
Qed.

Lemma bool_sum_filter {A} (f : A -> bool) (l : list A) :
  bool_sum (map f l) = len (filter f l).
Proof.
  unfold len. induction l as [|a l IH]; [reflexivity|].
  cbn [map bool_sum filter]. rewrite IH.
  destruct (f a); cbn [List.length]; lia.
Qed.

Lemma filter_length_le {A} (f : A -> bool) (l : list A) :
  len (filter f l) <= len l.
Proof.
  unfold len. apply Nat2Z.inj_le.
  induction l as [|a l IH]; [apply Nat.le_refl|].
  cbn [filter]. destruct (f a); cbn [List.length]; lia.
Qed.

Lemma len_nonneg {A} (l : list A) : 0 <= len l.
Proof. unfold len. lia. Qed.

Lemma len_zero {A} (l : list A) : len l = 0 <-> l = [].
Proof.
  unfold len. destruct l; simpl; split; intros E; easy.
Qed.

(** [nunique] is the length of any duplicate-free list of the same values. *)
Lemma nunique_enumeration (l ids : list Z) :
  NoDup ids -> (forall i, In i ids <-> In i l) -> nunique l = len ids.
Proof.
  intros ND M. unfold nunique, len. f_equal.
  apply Permutation_length, NoDup_Permutation.
  - apply NoDup_nodup.
  - exact ND.
  - intros i. rewrite nodup_In. symmetry. apply M.
Qed.

Lemma nunique_incl (l m : list Z) : incl l m -> nunique l <= nunique m.
Proof.
  intros I. unfold nunique. apply Nat2Z.inj_le, NoDup_incl_length.
  - apply NoDup_nodup.
  - intros i. rewrite !nodup_In. apply I.
Qed.

Lemma nunique_nonneg (l : list Z) : 0 <= nunique l.
Proof. unfold nunique. lia. Qed.

Lemma in_status_ids {A} (st : A -> option string) (key : A -> Z) (s : string)
    (l : list A) (i : Z) :
  In i (map key (filter (fun r => cell_eq (st r) s) l)) <->
  exists r, In r l /\ st r = Some s /\ key r = i.
Proof.
  rewrite in_map_iff. split.
  - intros (r & E & I). apply filter_In in I as (I & C).
    apply cell_eq_true in C. now exists r.
  - intros (r & I & C & E). exists r. split; [exact E|].
    apply filter_In. split; [exact I|]. now apply cell_eq_true.
Qed.

Lemma active_employees_enumeration (employees_df : list Employee) (ids : list Z) :
  lists_active employees_df ids -> active_employees employees_df = len ids.
Proof.
  intros (ND & M). apply nunique_enumeration; [exact ND|].
  intros i. rewrite M. symmetry. apply in_status_ids.
Qed.

Lemma enrolled_unique_enumeration (enrollment_df : list Enrollment) (ids : list Z) :
  lists_enrolled enrollment_df ids -> enrolled_unique enrollment_df = len ids.
Proof.
  intros (ND & M). apply nunique_enumeration; [exact ND|].
  intros i. rewrite M. symmetry. apply in_status_ids.
Qed.

(** ** The KPI formulas *)

Section KPIFacts.
Context {R : Type} `{Arith R}.

Lemma enrollment_rate_unfold employees_df enrollment_df :
  enrollment_rate employees_df enrollment_df =
  Value (rate_of (enrolled_unique enrollment_df) (active_employees employees_df)).
Proof.
  unfold enrollment_rate, rate_of, py_truediv.
  destruct (active_employees employees_df =? 0); reflexivity.
Qed.

Lemma deadline_adherence_rate_unfold now enrollment_df :
  deadline_adherence_rate now enrollment_df =
  Value (rate_of (len enrollment_df - overdue_count now enrollment_df)
                 (len enrollment_df)).
Proof.
  unfold deadline_adherence_rate, rate_of, py_truediv.
  destruct (len enrollment_df =? 0); reflexivity.
Qed.

Lemma exception_resolution_rate_unfold exceptions_df :
  exception_resolution_rate exceptions_df =
  rate_of (resolved_ex exceptions_df)
          (open_ex exceptions_df + resolved_ex exceptions_df).
Proof.
  unfold exception_resolution_rate, rate_of, np_truediv.
  destruct (open_ex exceptions_df + resolved_ex exceptions_df =? 0); reflexivity.
Qed.

Lemma overall_compliance_score_unfold now employees_df enrollment_df exceptions_df :
  overall_compliance_score now employees_df enrollment_df exceptions_df =
  Value (div (add (add (rate_of (enrolled_unique enrollment_df)
                                (active_employees employees_df))
                       (exception_resolution_rate exceptions_df))
                  (rate_of (len enrollment_df - overdue_count now enrollment_df)
                           (len enrollment_df)))
             (of_int 3)).
Proof.
  unfold overall_compliance_score.
  rewrite enrollment_rate_unfold, deadline_adherence_rate_unfold. reflexivity.
Qed.

End KPIFacts.

Lemma overdue_row_iff (now : datetime) (r : Enrollment) :
  overdue_row now r = true <-> Overdue now r.
Proof.
  unfold overdue_row, Overdue, date_lt, cell_ne.
  rewrite andb_true_iff, negb_true_iff. split.
  - intros (D & S). split.
    + destruct (be_election_deadline r) as [t|]; [|discriminate].
      exists t. split; [reflexivity|]. now apply Z.ltb_lt.
    + intros E. apply cell_eq_true in E. congruence.
  - intros ((t & E & L) & S). rewrite E. split.
    + now apply Z.ltb_lt.
    + destruct (cell_eq (be_enrollment_status r) "Enrolled") eqn:C; [|reflexivity].
      apply cell_eq_true in C. contradiction.
Qed.

(** ** C1: enrollment rate *)

Lemma two_employees_active : lists_active two_employees [1].
Proof.
  split.
  - repeat constructor; simpl; tauto.
  - intros i. simpl. split.
    + intros [E|[]]. subst i. exists (mk_employee 1 1 "Active"). simpl. tauto.
    + intros (e & [E|[E|[]]] & S & I); subst e; simpl in *; [tauto | discriminate].
Qed.

Lemma inactive_enrolled_ids : lists_enrolled inactive_enrolled [2].
Proof.
  split.
  - repeat constructor; simpl; tauto.
  - intros i. simpl. split.
    + intros [E|[]]. subst i. exists (mk_enrollment 1 2 1 None "Enrolled").
      simpl. tauto.
    + intros (e & [E|[]] & S & I); subst e; simpl in *; tauto.
Qed.


(** C1, as the code has it: [enrollment_rate] never raises; it is the number
    of distinct employee ids with at least one Enrolled row (whether or not
    the id belongs to an active employee) divided by the number of distinct
    active employee ids, times 100, and 0 when there is no active employee. *)
Theorem enrollment_rate_counts_enrolled_ids {R : Type} `{Arith R}
    (employees_df : list Employee) (enrollment_df : list Enrollment)
    (active enrolled_ids : list Z) :
  lists_active employees_df active ->
  lists_enrolled enrollment_df enrolled_ids ->
  enrollment_rate employees_df enrollment_df =
    if len active =? 0 then Value (of_int 0)
    else Value (mul (div (of_int (len enrolled_ids)) (of_int (len active)))
                    (of_int 100)).
Proof.
  intros HA HE. rewrite enrollment_rate_unfold. unfold rate_of.
  rewrite (active_employees_enumeration _ _ HA), (enrolled_unique_enumeration _ _ HE).
  destruct (len active =? 0); reflexivity.
Qed.

Lemma enrollment_rate_counts_enrolled_ids_witness :
  lists_active two_employees [1]
  /\ lists_enrolled inactive_enrolled [2]
  /\ enrollment_rate (R := Q) two_employees inactive_enrolled = Value 100%Q.
Proof.
  pose proof two_employees_active as HA.
  pose proof inactive_enrolled_ids as HE.
  split; [exact HA|]. split; [exact HE|].
  rewrite (enrollment_rate_counts_enrolled_ids (R := Q) _ _ _ _ HA HE).
  reflexivity.
Defined.

(** When every Enrolled row belongs to an active employee (as in the
    synthetic data), the numerator is the one the specification words. *)
Lemma enrollment_rate_when_enrolled_are_active {R : Type} `{Arith R}
    (employees_df : list Employee) (enrollment_df : list Enrollment)
    (active both : list Z) :
  (forall r, In r enrollment_df -> be_enrollment_status r = Some "Enrolled" ->
     exists e, In e employees_df /\ e_employment_status e = Some "Active"
               /\ e_employee_id e = be_employee_id r) ->
  lists_active employees_df active ->
  lists_active_enrolled employees_df enrollment_df both ->
  enrollment_rate employees_df enrollment_df = Value (rate_of (len both) (len active)).
Proof.
  intros HIn HA (ND & M). rewrite enrollment_rate_unfold.
  rewrite (active_employees_enumeration _ _ HA). f_equal. f_equal.
  apply enrolled_unique_enumeration. split; [exact ND|].
  intros i. rewrite M. split.
  - intros (_ & E). exact E.
  - intros (r & I & S & E). split; [|now exists r].
    destruct (HIn r I S) as (e & Ie & Se & Ee). exists e. repeat split; congruence.
Qed.

(** C1 fails as stated: an inactive employee's Enrolled row is counted.  No
    active employee has an Enrolled row here, yet the rate is 100. *)
Lemma enrollment_rate_counts_inactive_enrollee :
  lists_active two_employees [1]
  /\ lists_active_enrolled two_employees inactive_enrolled []
  /\ enrollment_rate (R := Q) two_employees inactive_enrolled = Value 100%Q
  /\ enrollment_rate (R := float) two_employees inactive_enrolled = Value 100%float
  /\ enrollment_rate (R := Q) two_employees inactive_enrolled
     <> Value (rate_of (len (@nil Z)) (len [1])).
Proof.
  split; [|split; [|split; [|split]]].
  - exact two_employees_active.
  - split; [constructor|].
    intros i. simpl. split; [tauto|].
    intros ((e & [E|[E|[]]] & S & I) & (r & [E'|[]] & S' & I')); subst e r;
      simpl in *; [congruence | discriminate].
  - reflexivity.
  - reflexivity.
  - vm_compute. discriminate.
Qed.

(** ** C3: deadline adherence rate *)

(** C3: [deadline_adherence_rate] never raises; it is (total rows - overdue
    rows) / total rows * 100, where a row is overdue exactly when its
    election deadline is strictly before the current date and its status is
    not Enrolled, and it is 0 for an empty enrollment table. *)
Theorem deadline_adherence_rate_spec {R : Type} `{Arith R}
    (now : datetime) (enrollment_df : list Enrollment) :
  (forall r, overdue_row now r = true <-> Overdue now r)
  /\ 0 <= overdue_count now enrollment_df <= len enrollment_df
  /\ deadline_adherence_rate now enrollment_df =
       if len enrollment_df =? 0 then Value (of_int 0)
       else Value (mul (div (of_int (len enrollment_df
                                     - len (filter (overdue_row now) enrollment_df)))
                            (of_int (len enrollment_df)))
                       (of_int 100)).
Proof.
  split; [apply overdue_row_iff|]. split.
  - unfold overdue_count. split; [apply len_nonneg | apply filter_length_le].
  - rewrite deadline_adherence_rate_unfold. unfold rate_of, overdue_count.
    destruct (len enrollment_df =? 0); reflexivity.
Qed.

(** ** C5: exception resolution rate *)

Lemma open_ex_count (exceptions_df : list ComplianceException) :
  open_ex exceptions_df = len (exceptions_with "Open" exceptions_df).
Proof.
  unfold open_ex, exceptions_with. rewrite bool_sum_filter. f_equal.
  apply filter_ext. intros x. apply cell_eq_has_cell.
Qed.

Lemma resolved_ex_count (exceptions_df : list ComplianceException) :
  resolved_ex exceptions_df = len (exceptions_with "Resolved" exceptions_df).
Proof.
  unfold resolved_ex, exceptions_with. rewrite bool_sum_filter. f_equal.
  apply filter_ext. intros x. apply cell_eq_has_cell.
Qed.

(** C5: [exception_resolution_rate] is the number of Resolved rows divided
    by the number of Open rows plus the number of Resolved rows, times 100,
    and 0 when there are neither; the division is then not evaluated. *)
Theorem exception_resolution_rate_spec {R : Type} `{Arith R}
    (exceptions_df : list ComplianceException) :
  let open := len (exceptions_with "Open" exceptions_df) in
  let resolved := len (exceptions_with "Resolved" exceptions_df) in
  exception_resolution_rate exceptions_df =
    if open + resolved =? 0 then of_int 0
    else mul (div (of_int resolved) (of_int (open + resolved))) (of_int 100).
Proof.
  cbv zeta. rewrite exception_resolution_rate_unfold, open_ex_count, resolved_ex_count.
  reflexivity.
Qed.

(** ** C9: rows without an election deadline *)

Lemma overdue_count_app (now : datetime) (l m : list Enrollment) :
  overdue_count now (l ++ m) = overdue_count now l + overdue_count now m.
Proof.
  unfold overdue_count, len. rewrite filter_app, length_app. lia.
Qed.

(** C9: a row whose election deadline is missing is not overdue, whatever
    its status: wherever it stands in the table it leaves the overdue count
    unchanged and adds one to the rows counted as on time. *)
Theorem missing_deadline_never_overdue (now : datetime) (r : Enrollment)
    (before after : list Enrollment) :
  be_election_deadline r = None ->
  overdue_row now r = false
  /\ ~ Overdue now r
  /\ overdue_count now (before ++ r :: after) = overdue_count now (before ++ after)
  /\ len (before ++ r :: after) - overdue_count now (before ++ r :: after)
     = len (before ++ after) - overdue_count now (before ++ after) + 1.
Proof.
  intros E.
  assert (F : overdue_row now r = false).
  { unfold overdue_row, date_lt. now rewrite E. }
  assert (C : overdue_count now (before ++ r :: after)
              = overdue_count now (before ++ after)).
  { rewrite !overdue_count_app. f_equal. unfold overdue_count.
    cbn [filter]. now rewrite F. }
  split; [exact F|]. split.
  - intros O. apply overdue_row_iff in O. congruence.
  - split; [exact C|]. rewrite C. unfold len.
    rewrite !length_app. cbn [List.length]. lia.
Qed.

Lemma missing_deadline_never_overdue_witness :
  overdue_row a_now (mk_enrollment 3 1 2 None "Pending") = false.
Proof.
  apply (missing_deadline_never_overdue a_now (mk_enrollment 3 1 2 None "Pending")
           [mk_enrollment 1 1 1 (Some a_past) "Pending"] []).
  reflexivity.
Defined.

(** ** C10: exceptions that are neither Open nor Resolved *)

Lemma bool_sum_filter_implied {A} (f g : A -> bool) (l : list A) :
  (forall a, f a = true -> g a = true) ->
  bool_sum (map f (filter g l)) = bool_sum (map f l).
Proof.
  intros I. induction l as [|a l IH]; [reflexivity|].
  cbn [filter]. destruct (g a) eqn:G; cbn [map bool_sum]; rewrite IH; [reflexivity|].
  destruct (f a) eqn:F; [|reflexivity]. apply I in F. congruence.
Qed.

(** C10: dropping the rows whose resolution status is neither Open nor
    Resolved changes neither the numerator, nor the denominator, nor the
    rate; and two tables with the same Open and Resolved counts have the
    same rate. *)
Theorem exception_resolution_rate_ignores_other_statuses {R : Type} `{Arith R}
    (exceptions_df : list ComplianceException) :
  let kept := filter open_or_resolved exceptions_df in
  resolved_ex kept = resolved_ex exceptions_df
  /\ open_ex kept + resolved_ex kept
     = open_ex exceptions_df + resolved_ex exceptions_df
  /\ exception_resolution_rate kept = exception_resolution_rate exceptions_df
  /\ forall other : list ComplianceException,
       open_ex other = open_ex exceptions_df ->
       resolved_ex other = resolved_ex exceptions_df ->
       exception_resolution_rate other = exception_resolution_rate exceptions_df.
Proof.
  cbv zeta.
  assert (Hr : resolved_ex (filter open_or_resolved exceptions_df)
               = resolved_ex exceptions_df).
  { unfold resolved_ex. apply bool_sum_filter_implied.
    intros x E. unfold open_or_resolved. rewrite E. apply orb_true_r. }
  assert (Ho : open_ex (filter open_or_resolved exceptions_df)
               = open_ex exceptions_df).
  { unfold open_ex. apply bool_sum_filter_implied.
    intros x E. unfold open_or_resolved. now rewrite E. }
  split; [exact Hr|]. split; [now rewrite Hr, Ho|]. split.
  - rewrite !exception_resolution_rate_unfold. now rewrite Hr, Ho.
  - intros other Eo Er. rewrite !exception_resolution_rate_unfold.
    now rewrite Eo, Er.
Qed.

Lemma exception_resolution_rate_ignores_other_statuses_witness :
  exception_resolution_rate (R := Q)
    [mk_exception 7 3 (Some "Resolved"); mk_exception 8 3 (Some "Open")]
  = exception_resolution_rate (R := Q) mixed_exceptions.
Proof.
  apply (exception_resolution_rate_ignores_other_statuses (R := Q) mixed_exceptions);
    reflexivity.
Defined.

(** ** C7: one employee, an Enrolled row and an overdue Pending row *)

(** C7: with exactly one active employee holding exactly two enrollment
    rows, one Enrolled and one Pending on another plan whose deadline is
    before the current date, the enrollment rate is 100 and the deadline
    adherence rate is 50, in binary64 as in exact arithmetic. *)
Theorem scenario_enrolled_and_overdue_pending
    (now t : datetime) (e : Employee) (r1 r2 : Enrollment)
    (enrollment_df : list Enrollment) :
  e_employment_status e = Some "Active" ->
  be_employee_id r1 = e_employee_id e ->
  be_employee_id r2 = e_employee_id e ->
  be_enrollment_status r1 = Some "Enrolled" ->
  be_enrollment_status r2 = Some "Pending" ->
  be_plan_id r1 <> be_plan_id r2 ->
  be_election_deadline r2 = Some t ->
  dt_date t < dt_date now ->
  enrollment_df = [r1; r2] \/ enrollment_df = [r2; r1] ->
  enrollment_rate (R := float) [e] enrollment_df = Value 100%float
  /\ deadline_adherence_rate (R := float) now enrollment_df = Value 50%float
  /\ (exists q : Q, enrollment_rate [e] enrollment_df = Value q /\ (q == 100)%Q)
  /\ (exists q : Q, deadline_adherence_rate now enrollment_df = Value q
                    /\ (q == 50)%Q).
Proof.
  intros Se I1 I2 S1 S2 _ D L Hdf.
  assert (Ha : active_employees [e] = 1).
  { unfold active_employees. cbn [filter]. rewrite Se. reflexivity. }
  assert (O1 : overdue_row now r1 = false).
  { unfold overdue_row, cell_ne. rewrite S1. cbn. apply andb_false_r. }
  assert (O2 : overdue_row now r2 = true).
  { apply overdue_row_iff. split; [now exists t|]. rewrite S2. discriminate. }
  assert (He : enrolled_unique enrollment_df = 1).
  { unfold enrolled_unique.
    destruct Hdf; subst enrollment_df; cbn [filter]; rewrite S1, S2; reflexivity. }
  assert (Ho : overdue_count now enrollment_df = 1).
  { unfold overdue_count.
    destruct Hdf; subst enrollment_df; cbn [filter]; rewrite O1, O2; reflexivity. }
  assert (Hl : len enrollment_df = 2).
  { destruct Hdf; subst enrollment_df; reflexivity. }
  rewrite !enrollment_rate_unfold, !deadline_adherence_rate_unfold.
  rewrite Ha, He, Ho, Hl.
  split; [reflexivity|]. split; [reflexivity|].
  split; eexists; (split; [reflexivity|]); reflexivity.
Qed.

Lemma scenario_enrolled_and_overdue_pending_witness :
  enrollment_rate (R := float) [mk_employee 1 1 "Active"]
    [mk_enrollment 1 1 1 None "Enrolled";
     mk_enrollment 2 1 2 (Some a_past) "Pending"] = Value 100%float
  /\ deadline_adherence_rate (R := float) a_now
       [mk_enrollment 1 1 1 None "Enrolled";
        mk_enrollment 2 1 2 (Some a_past) "Pending"] = Value 50%float.
Proof.
  destruct (scenario_enrolled_and_overdue_pending a_now a_past
              (mk_employee 1 1 "Active")
              (mk_enrollment 1 1 1 None "Enrolled")
              (mk_enrollment 2 1 2 (Some a_past) "Pending")
              [mk_enrollment 1 1 1 None "Enrolled";
               mk_enrollment 2 1 2 (Some a_past) "Pending"])
    as (E & D & _); try reflexivity.
  - cbn. discriminate.
  - left. reflexivity.
  - split; [exact E | exact D].
Defined.

(** ** C4: overall compliance score *)

Lemma mean3_between (a b c : Q) :
  (Qmin a (Qmin b c) <= (a + b + c) / 3 <= Qmax a (Qmax b c))%Q.
Proof.
  assert (La := Q.le_min_l a (Qmin b c)).
  assert (Lb := Qle_trans _ _ _ (Q.le_min_r a (Qmin b c)) (Q.le_min_l b c)).
  assert (Lc := Qle_trans _ _ _ (Q.le_min_r a (Qmin b c)) (Q.le_min_r b c)).
  assert (Ua := Q.le_max_l a (Qmax b c)).
  assert (Ub := Qle_trans _ _ _ (Q.le_max_l b c) (Q.le_max_r a (Qmax b c))).
  assert (Uc := Qle_trans _ _ _ (Q.le_max_r b c) (Q.le_max_r a (Qmax b c))).
  split.
  - apply Qle_shift_div_l; [reflexivity|]. lra.
  - apply Qle_shift_div_r; [reflexivity|]. lra.
Qed.

(** C4, as the code has it: [overall_compliance_score] never raises; it is
    the sum of the three rates divided by 3 in the arithmetic of the run,
    and in exact arithmetic it lies between the least and the greatest of
    the three rates. *)
Theorem overall_compliance_score_mean
    (now : datetime) (employees_df : list Employee)
    (enrollment_df : list Enrollment) (exceptions_df : list ComplianceException) :
  (forall (R : Type) (A : Arith R),
     exists er dr : R,
       enrollment_rate employees_df enrollment_df = Value er
       /\ deadline_adherence_rate now enrollment_df = Value dr
       /\ overall_compliance_score now employees_df enrollment_df exceptions_df
          = Value (div (add (add er (exception_resolution_rate exceptions_df)) dr)
                       (of_int 3)))
  /\ exists er dr m : Q,
       enrollment_rate employees_df enrollment_df = Value er
       /\ deadline_adherence_rate now enrollment_df = Value dr
       /\ overall_compliance_score now employees_df enrollment_df exceptions_df
          = Value m
       /\ (Qmin er (Qmin (exception_resolution_rate exceptions_df) dr) <= m
           <= Qmax er (Qmax (exception_resolution_rate exceptions_df) dr))%Q.
Proof.
  split.
  - intros R A. eexists. eexists.
    split; [apply enrollment_rate_unfold|].
    split; [apply deadline_adherence_rate_unfold|].
    apply overall_compliance_score_unfold.
  - eexists. eexists. eexists.
    split; [apply enrollment_rate_unfold|].
    split; [apply deadline_adherence_rate_unfold|].
    split; [apply overall_compliance_score_unfold|].
    apply mean3_between.
Qed.

(** C4 fails as stated in the arithmetic of the run: with three rates that
    are each 1/9*100 = 11.11111111111111 (0x1.638e38e38e38ep+3) the binary64
    mean is 11.111111111111109 (0x1.638e38e38e38dp+3), below all three; the
    order in which the three equal rates are summed does not matter. *)
Lemma overall_compliance_score_below_min_in_binary64 :
  enrollment_rate nine_employees nine_enrollments = Value 0x1.638e38e38e38ep+3%float
  /\ exception_resolution_rate nine_exceptions = 0x1.638e38e38e38ep+3%float
  /\ deadline_adherence_rate a_now nine_enrollments
     = Value 0x1.638e38e38e38ep+3%float
  /\ overall_compliance_score a_now nine_employees nine_enrollments nine_exceptions
     = Value 0x1.638e38e38e38dp+3%float
  /\ PrimFloat.ltb 0x1.638e38e38e38dp+3 0x1.638e38e38e38ep+3 = true
  /\ PrimFloat.eqb 0x1.638e38e38e38ep+3 (1 / 9 * 100) = true
  /\ PrimFloat.eqb 0x1.638e38e38e38dp+3
       ((0x1.638e38e38e38ep+3 + (0x1.638e38e38e38ep+3 + 0x1.638e38e38e38ep+3)) / 3)
     = true.
Proof.
  repeat split; vm_compute; reflexivity.
Qed.

(** ** C6: the status summary and the pending count *)

Lemma insert_by_perm {A} (before : A -> A -> bool) (x : A) (l : list A) :
  Permutation (insert_by before x l) (x :: l).
Proof.
  induction l as [|y t IH]; cbn [insert_by]; [reflexivity|].
  destruct (before y x); [|reflexivity].
  rewrite IH. apply perm_swap.
Qed.

Lemma order_by_perm {A} (before : A -> A -> bool) (l : list A) :
  Permutation (order_by before l) l.
Proof.
  induction l as [|x t IH]; [reflexivity|].
  unfold order_by in *. cbn [fold_right].
  rewrite insert_by_perm. now constructor.
Qed.

Lemma find_unique_status (s : string) (l : list StatusCount) (r : StatusCount) :
  NoDup (map sc_enrollment_status l) -> In r l ->
  sc_enrollment_status r = Some s ->
  find (fun x => cell_eq (sc_enrollment_status x) s) l = Some r.
Proof.
  intros ND I K. induction l as [|y t IH]; [contradiction|].
  cbn [map] in ND. inversion ND as [|? ? Ny NDt]; subst.
  cbn [find]. destruct I as [E|I].
  - subst y. rewrite K. cbn. now rewrite String.eqb_refl.
  - destruct (cell_eq (sc_enrollment_status y) s) eqn:C.
    + apply cell_eq_true in C. exfalso. apply Ny. rewrite C, <- K.
      now apply in_map.
    + now apply IH.
Qed.

Lemma find_absent_status (s : string) (l : list StatusCount) :
  ~ In (Some s) (map sc_enrollment_status l) ->
  find (fun x => cell_eq (sc_enrollment_status x) s) l = None.
Proof.
  intros N. induction l as [|y t IH]; [reflexivity|].
  cbn [find]. destruct (cell_eq (sc_enrollment_status y) s) eqn:C.
  - apply cell_eq_true in C. exfalso. apply N. left. exact C.
  - apply IH. intros I. apply N. now right.
Qed.

(** The summary reports, for each status, the number of rows that have it. *)
Lemma status_ct_counts (s : string) (benefits_enrollment : list Enrollment) :
  status_ct s (q_enrollment_status benefits_enrollment) =
  Z.of_nat (count_occ cell_dec (map be_enrollment_status benefits_enrollment) (Some s)).
Proof.
  unfold status_ct, q_enrollment_status. cbv zeta.
  set (col := map be_enrollment_status benefits_enrollment).
  set (mk := fun k => {| sc_enrollment_status := k;
                         sc_ct := Z.of_nat (count_occ cell_dec col k) |}).
  set (q := order_by _ _).
  assert (P : Permutation q (map mk (nodup cell_dec col))) by apply order_by_perm.
  assert (K : map sc_enrollment_status (map mk (nodup cell_dec col))
              = nodup cell_dec col).
  { rewrite map_map. cbn. apply map_id. }
  assert (ND : NoDup (map sc_enrollment_status q)).
  { eapply Permutation_NoDup.
    - symmetry. apply Permutation_map. exact P.
    - rewrite K. apply NoDup_nodup. }
  destruct (in_dec cell_dec (Some s) col) as [I|N].
  - assert (Iq : In (mk (Some s)) q).
    { eapply Permutation_in; [symmetry; exact P|].
      apply in_map. now apply nodup_In. }
    rewrite (find_unique_status s q (mk (Some s)) ND Iq eq_refl). reflexivity.
  - rewrite find_absent_status.
    + now rewrite (proj1 (count_occ_not_In cell_dec col (Some s)) N).
    + intros I. apply N.
      apply (Permutation_in _ (Permutation_map sc_enrollment_status P)) in I.
      rewrite K in I. now apply nodup_In in I.
Qed.

Lemma pendings_counts (enrollment_df : list Enrollment) :
  pendings enrollment_df =
  Z.of_nat (count_occ cell_dec (map be_enrollment_status enrollment_df) (Some "Pending")).
Proof.
  unfold pendings. induction enrollment_df as [|r l IH]; [reflexivity|].
  cbn [map bool_sum count_occ]. rewrite IH.
  destruct (cell_dec (be_enrollment_status r) (Some "Pending")) as [E|N].
  - rewrite (proj2 (cell_eq_true _ _) E). lia.
  - destruct (cell_eq (be_enrollment_status r) "Pending") eqn:C; [|lia].
    apply cell_eq_true in C. contradiction.
Qed.

(** C6: when every enrollment row is Enrolled, Pending or Declined, the
    pending count and the status summary's counts for Enrolled and Declined
    add up to the number of enrollment rows. *)
Theorem pending_enrolled_declined_partition (enrollment_df : list Enrollment) :
  Forall (fun r => be_enrollment_status r = Some "Enrolled"
                   \/ be_enrollment_status r = Some "Pending"
                   \/ be_enrollment_status r = Some "Declined") enrollment_df ->
  pendings enrollment_df
  + status_ct "Enrolled" (q_enrollment_status enrollment_df)
  + status_ct "Declined" (q_enrollment_status enrollment_df)
  = len enrollment_df.
Proof.
  intros F. rewrite pendings_counts, !status_ct_counts. unfold len.
  induction F as [|r l Hr F IH]; [reflexivity|].
  cbn [map count_occ List.length].
  destruct Hr as [E|[E|E]]; rewrite E;
    repeat match goal with
           | |- context [cell_dec ?a ?b] =>
               destruct (cell_dec a b); try discriminate; try contradiction
           end.
  all: rewrite !Nat2Z.inj_succ; revert IH; clear; intros IH; lia.
Qed.

Lemma pending_enrolled_declined_partition_witness :
  pendings nine_enrollments
  + status_ct "Enrolled" (q_enrollment_status nine_enrollments)
  + status_ct "Declined" (q_enrollment_status nine_enrollments)
  = len nine_enrollments.
Proof.
  apply (pending_enrolled_declined_partition nine_enrollments).
  repeat constructor; simpl; tauto.
Defined.

(** ** C2: department overview *)

Lemma left_join_in {A B} (on : A -> B -> bool) (l : list A) (r : list B)
    (a : A) (ob : option B) :
  In (a, ob) (left_join on l r) ->
  In a l /\ match ob with
            | Some b => In b r /\ on a b = true
            | None => True
            end.
Proof.
  unfold left_join. rewrite in_flat_map. intros (a0 & Ia & I).
  destruct (filter (on a0) r) as [|b0 ms] eqn:F.
  - destruct I as [E|[]]. inversion E; subst. now split.
  - rewrite <- F in I. apply in_map_iff in I as (b & E & Ib).
    inversion E; subst. apply filter_In in Ib. now split.
Qed.

Lemma left_join_complete {A B} (on : A -> B -> bool) (l : list A) (r : list B)
    (a : A) (b : B) :
  In a l -> In b r -> on a b = true -> In (a, Some b) (left_join on l r).
Proof.
  intros Ia Ib O. unfold left_join. apply in_flat_map. exists a. split; [exact Ia|].
  assert (Ib' : In b (filter (on a) r)) by (apply filter_In; now split).
  destruct (filter (on a) r) as [|b0 ms] eqn:F; [contradiction|].
  apply in_map_iff. now exists b.
Qed.

Lemma left_join_total {A B} (on : A -> B -> bool) (l : list A) (r : list B) (a : A) :
  In a l -> exists ob, In (a, ob) (left_join on l r).
Proof.
  intros Ia. unfold left_join.
  destruct (filter (on a) r) as [|b0 ms] eqn:F.
  - exists None. apply in_flat_map. exists a. split; [exact Ia|].
    rewrite F. now left.
  - exists (Some b0). apply in_flat_map. exists a. split; [exact Ia|].
    rewrite F. now left.
Qed.

Lemma in_non_null {A} (l : list (option A)) (a : A) :
  In a (non_null l) <-> In (Some a) l.
Proof.
  induction l as [|[x|] t IH]; cbn [non_null In].
  - tauto.
  - rewrite IH. split; intros [E|I]; auto; left; congruence.
  - rewrite IH. split; [auto|]. intros [E|I]; [discriminate | exact I].
Qed.

Lemma in_enrolled (benefits_enrollment : list Enrollment) (i : Z) :
  In i (enrolled benefits_enrollment) <-> has_enrolled_row benefits_enrollment i.
Proof.
  unfold enrolled, has_enrolled_row. rewrite nodup_In. apply in_status_ids.
Qed.

Lemma on_employee_true {B} (key : B -> Z) (oe : option Employee) (b : B) :
  on_employee key oe b = true <-> exists e, oe = Some e /\ e_employee_id e = key b.
Proof.
  unfold on_employee. destruct oe as [e|].
  - rewrite Z.eqb_eq. split.
    + intros E. now exists e.
    + intros (e' & E1 & E2). now inversion E1; subst.
  - split; [discriminate|]. intros (e & E & _). discriminate.
Qed.

Section DeptJoin.
Variable departments : list Department.
Variable employees : list Employee.
Variable benefits_enrollment : list Enrollment.
Variable compliance_exceptions : list ComplianceException.

Let js := dept_joined departments employees benefits_enrollment
            compliance_exceptions.

(** What a row of the join says about the base tables. *)
Lemma dept_joined_in (j : Joined) :
  In j js ->
  In (j_d j) departments
  /\ (forall e, j_e j = Some e ->
        In e employees /\ d_department_id (j_d j) = e_department_id e)
  /\ (forall i, j_en j = Some i ->
        has_enrolled_row benefits_enrollment i
        /\ exists e, j_e j = Some e /\ e_employee_id e = i).
Proof.
  destruct j as [[[d oe] oen] oce]. unfold js, dept_joined, j_d, j_e, j_en.
  cbn [fst snd]. intros I.
  apply left_join_in in I as (I2 & _).
  apply left_join_in in I2 as (I1 & Hen).
  apply left_join_in in I1 as (Id & He).
  split; [exact Id|]. split.
  - intros e E. subst oe. destruct He as (Ie & O).
    apply Z.eqb_eq in O. now split.
  - intros i E. subst oen. cbn [snd] in Hen. destruct Hen as (Ii & O).
    split; [now apply in_enrolled|]. now apply on_employee_true in O.
Qed.




Lemma q_dept_overview_rows (row : DeptOverview) :
  In row (q_dept_overview departments employees benefits_enrollment
            compliance_exceptions) ->
  row = dept_row (ov_department_name row) (dept_group js (ov_department_name row)).
Proof.
  unfold q_dept_overview. cbv zeta. intros I.
  apply (Permutation_in _ (order_by_perm _ _)) in I.
  apply in_map_iff in I as (name & E & _). subst row. reflexivity.
Qed.

End DeptJoin.








Lemma finance_employee_ids (i : Z) :
  In i [1; 2] <-> dept_employee two_departments two_employees "Finance" i.
Proof.
  unfold dept_employee. split.
  - intros [E|[E|[]]]; subst i.
    + exists {| d_department_id := 1; d_department_name := "Finance" |},
             (mk_employee 1 1 "Active"). cbn. tauto.
    + exists {| d_department_id := 1; d_department_name := "Finance" |},
             (mk_employee 2 1 "Inactive"). cbn. tauto.
  - intros (d & e & Id & [E|[E|[]]] & _ & _ & Ei); subst e i; cbn; tauto.
Qed.




(** The rate is rounded in DOUBLE: 23 enrolled of 4000 give the DOUBLE
    nearest to 0.57 (the quotient 0.575 is a little below 575/1000 in
    binary64, and 100 times it is below 57.5), and 1 of 3 gives the DOUBLE
    nearest to 33.33, not 100/3. *)
Lemma sql_enrollment_rate_is_rounded_in_double :
  rate_double 23 4000 = 0x1.23d70a3d70a3dp-1%float
  /\ PrimFloat.eqb (rate_double 23 4000) (PrimFloat.div 57 100) = true
  /\ sql_enrollment_rate 23 4000 = Some (5134103575202365 # 9007199254740992)
  /\ PrimFloat.eqb (rate_double 1 3) (PrimFloat.div 3333 100) = true
  /\ map ov_enrollment_rate
       (q_dept_overview two_departments three_employees one_enrolled [])
     = [sql_enrollment_rate 1 3; None].
Proof.
  repeat split; vm_compute; reflexivity.
Qed.

(** ** C8: the synthetic data and the clock *)

Lemma len_map {A B} (f : A -> B) (l : list A) : len (map f l) = len l.
Proof. unfold len. now rewrite length_map. Qed.

Lemma for_each_sim {S A B} (f : B -> B) (b1 b2 : A -> list B -> Gen S (list B)) :
  (forall x acc w,
     b2 x (map f acc) w = (map f (fst (b1 x acc w)), snd (b1 x acc w))) ->
  forall l acc w,
    for_each l b2 (map f acc) w
    = (map f (fst (for_each l b1 acc w)), snd (for_each l b1 acc w)).
Proof.
  intros Hb l. induction l as [|x t IH]; intros acc w; [reflexivity|].
  cbn [for_each bind gen_monad]. rewrite Hb.
  destruct (b1 x acc w) as [acc' w']. cbn [fst snd]. apply IH.
Qed.

Section Shift.
Variable rs : RandomState.
Variables clock1 clock2 : nat -> datetime.
Variable delta : Z.
Hypothesis clock_shift : forall k, clock2 k = clock1 k + delta.

Lemma enroll_plan_shift (emp_id plan_id : Z) (acc : list Enrollment)
    (w : World rs) :
  enroll_plan rs clock2 emp_id plan_id (map (shift_enrollment delta) acc) w
  = (map (shift_enrollment delta) (fst (enroll_plan rs clock1 emp_id plan_id acc w)),
     snd (enroll_plan rs clock1 emp_id plan_id acc w)).
Proof.
  unfold enroll_plan, now, randint, choice1. cbn [bind ret gen_monad fst snd].
  draw. draw.
  rewrite map_app, len_map, clock_shift. cbn [map]. f_equal. f_equal. f_equal.
  unfold shift_enrollment, shift_date. cbn.
  destruct (String.eqb _ "Enrolled"); cbn; shifted_dates.
Qed.

Lemma enroll_employee_shift (e : Employee) (acc : list Enrollment) (w : World rs) :
  enroll_employee rs clock2 e (map (shift_enrollment delta) acc) w
  = (map (shift_enrollment delta) (fst (enroll_employee rs clock1 e acc w)),
     snd (enroll_employee rs clock1 e acc w)).
Proof.
  unfold enroll_employee.
  destruct (cell_eq (e_employment_status e) "Active"); [|reflexivity].
  unfold randint, choice. cbn [bind gen_monad fst snd].
  draw. draw.
  apply for_each_sim. apply enroll_plan_shift.
Qed.

Lemma eligibility_row_shift (row : Employee) (acc : list Eligibility)
    (w : World rs) :
  eligibility_row rs clock2 row (map (shift_eligibility delta) acc) w
  = (map (shift_eligibility delta) (fst (eligibility_row rs clock1 row acc w)),
     snd (eligibility_row rs clock1 row acc w)).
Proof.
  unfold eligibility_row. cbv zeta.
  destruct (cell_eq (e_employment_status row) "Active");
    unfold now; cbn [bind ret gen_monad fst snd]; rewrite map_app; cbn [map].
  - reflexivity.
  - rewrite clock_shift. f_equal. f_equal. f_equal.
    unfold shift_eligibility, shift_date. cbn. shifted_dates.
Qed.

Lemma exception_row_shift (emp_id : Z) (acc : list ComplianceException)
    (w : World rs) :
  exception_row rs clock2 emp_id (map (shift_exception delta) acc) w
  = (map (shift_exception delta) (fst (exception_row rs clock1 emp_id acc w)),
     snd (exception_row rs clock1 emp_id acc w)).
Proof.
  unfold exception_row, now, randint, choice1. cbn [bind ret gen_monad fst snd].
  draw. draw. draw. draw.
  destruct (String.eqb _ "Resolved"); cbn [bind ret gen_monad fst snd].
  - draw.
    rewrite map_app, len_map, clock_shift. cbn [map]. f_equal. f_equal. f_equal.
    unfold shift_exception, shift_date. cbn. shifted_dates.
  - rewrite map_app, len_map, clock_shift. cbn [map]. f_equal. f_equal. f_equal.
    unfold shift_exception, shift_date. cbn. shifted_dates.
Qed.

(** Moving the clock by [delta] moves the generated dates by [delta] and
    changes nothing else. *)
Lemma synthesize_shift :
  synthesize rs clock2 = shift_tables delta (synthesize rs clock1).
Proof.
  unfold synthesize, gen_tables. cbn [bind gen_monad].
  destruct (gen_employees rs _) as [employees_df w1].
  pose proof (for_each_sim (shift_enrollment delta) _ _ enroll_employee_shift
                employees_df [] w1) as E1.
  cbn [map] in E1. rewrite E1. clear E1.
  destruct (for_each employees_df (enroll_employee rs clock1) [] w1)
    as [enrollment_df w2]. cbn [fst snd].
  pose proof (for_each_sim (shift_eligibility delta) _ _ eligibility_row_shift
                employees_df [] w2) as E2.
  cbn [map] in E2. rewrite E2. clear E2.
  destruct (for_each employees_df (eligibility_row rs clock1) [] w2)
    as [eligibility_df w3]. cbn [fst snd].
  match goal with
  | |- context [choice rs ?d ?a ?n ?r ?p w3] =>
      destruct (choice rs d a n r p w3) as [emp_ids w4]
  end.
  pose proof (for_each_sim (shift_exception delta) _ _ exception_row_shift
                emp_ids [] w4) as E3.
  cbn [map] in E3. rewrite E3. clear E3.
  destruct (for_each emp_ids (exception_row rs clock1) [] w4)
    as [exceptions_df w5]. reflexivity.
Qed.

End Shift.

Lemma shift_date_0 (c : option datetime) : shift_date 0 c = c.
Proof. destruct c as [t|]; cbn; [now rewrite Z.add_0_r | reflexivity]. Qed.

Lemma shift_tables_0 (T : Tables) : shift_tables 0 T = T.
Proof.
  destruct T as [em de pl en el ex]. unfold shift_tables. cbn. f_equal.
  - rewrite <- (map_id en) at 2. apply map_ext. intros r. destruct r.
    unfold shift_enrollment. cbn. now rewrite !shift_date_0.
  - rewrite <- (map_id el) at 2. apply map_ext. intros r. destruct r.
    unfold shift_eligibility. cbn. now rewrite !shift_date_0.
  - rewrite <- (map_id ex) at 2. apply map_ext. intros r. destruct r.
    unfold shift_exception. cbn. now rewrite !shift_date_0.
Qed.

(** The first three tables are made before the clock is read. *)
Lemma synthesize_clock_free_tables (rs : RandomState) (clock : nat -> datetime) :
  t_employees (synthesize rs clock) = fst (gen_employees rs (rs_seed rs SEED, 0%nat))
  /\ t_departments (synthesize rs clock) = departments_df
  /\ t_plans (synthesize rs clock) = plans_df.
Proof.
  unfold synthesize, gen_tables. cbn [bind gen_monad].
  destruct (gen_employees rs _) as [employees_df w1].
  destruct (for_each employees_df (enroll_employee rs clock) [] w1) as [? w2].
  destruct (for_each employees_df (eligibility_row rs clock) [] w2) as [? w3].
  match goal with
  | |- context [choice rs ?d ?a ?n ?r ?p w3] =>
      destruct (choice rs d a n r p w3) as [emp_ids w4]
  end.
  destruct (for_each emp_ids (exception_row rs clock) [] w4) as [? w5].
  cbn. auto.
Qed.

(** C8 fails as stated: a run one day later produces other enrollment,
    eligibility and exceptions tables. *)
Lemma synthesize_differs_a_day_later :
  ~ (forall (rs : RandomState) (clock1 clock2 : nat -> datetime),
       synthesize rs clock1 = synthesize rs clock2)
  /\ t_enrollment (synthesize counter_rs clock_a)
     <> t_enrollment (synthesize counter_rs clock_b)
  /\ t_eligibility (synthesize counter_rs clock_a)
     <> t_eligibility (synthesize counter_rs clock_b)
  /\ t_exceptions (synthesize counter_rs clock_a)
     <> t_exceptions (synthesize counter_rs clock_b).
Proof.
  assert (X : t_exceptions (synthesize counter_rs clock_a)
              <> t_exceptions (synthesize counter_rs clock_b)).
  { intros E.
    apply (f_equal (fun l => option_map ce_exception_date (hd_error l))) in E.
    vm_compute in E. discriminate. }
  split; [|split; [|split]].
  - intros H. apply X. now rewrite (H counter_rs clock_a clock_b).
  - intros E.
    apply (f_equal (fun l => option_map be_enrollment_date (hd_error l))) in E.
    vm_compute in E. discriminate.
  - intros E.
    apply (f_equal (fun l => option_map el_eligibility_end_date (hd_error l))) in E.
    vm_compute in E. discriminate.
  - exact X.
Qed.

(** The dependence on the clock does not come from the random state: for
    any generator that returns as many elements as asked, moving the clock
    moves the exceptions table. *)
Lemma for_each_length {S A B} (body : A -> list B -> Gen S (list B)) :
  (forall x acc w, List.length (fst (body x acc w)) = Datatypes.S (List.length acc)) ->
  forall l acc w,
    List.length (fst (for_each l body acc w)) = (List.length acc + List.length l)%nat.
Proof.
  intros Hb l. induction l as [|x t IH]; intros acc w.
  - cbn. lia.
  - cbn [for_each bind gen_monad]. specialize (Hb x acc w).
    destruct (body x acc w) as [acc' w']. cbn [fst] in Hb.
    rewrite IH, Hb. cbn [List.length]. lia.
Qed.

Lemma for_each_forall {S A B} (P : B -> Prop) (body : A -> list B -> Gen S (list B)) :
  (forall x acc w, Forall P acc -> Forall P (fst (body x acc w))) ->
  forall l acc w, Forall P acc -> Forall P (fst (for_each l body acc w)).
Proof.
  intros Hb l. induction l as [|x t IH]; intros acc w F; [exact F|].
  cbn [for_each bind gen_monad]. specialize (Hb x acc w F).
  destruct (body x acc w) as [acc' w']. now apply IH.
Qed.

Section ExceptionsMove.
Variable rs : RandomState.
Variable clock : nat -> datetime.

Lemma exception_row_length emp_id acc (w : World rs) :
  List.length (fst (exception_row rs clock emp_id acc w))
  = Datatypes.S (List.length acc).
Proof.
  unfold exception_row, now, randint, choice1. cbn [bind ret gen_monad fst snd].
  draw. draw. draw. draw.
  destruct (String.eqb _ "Resolved"); cbn [bind ret gen_monad fst snd].
  - draw. rewrite length_app. cbn. lia.
  - rewrite length_app. cbn. lia.
Qed.

Lemma exception_row_dated emp_id acc (w : World rs) :
  Forall (fun x => ce_exception_date x <> None) acc ->
  Forall (fun x => ce_exception_date x <> None)
         (fst (exception_row rs clock emp_id acc w)).
Proof.
  intros F.
  unfold exception_row, now, randint, choice1. cbn [bind ret gen_monad fst snd].
  draw. draw. draw. draw.
  destruct (String.eqb _ "Resolved"); cbn [bind ret gen_monad fst snd].
  - draw. apply Forall_app. split; [exact F|]. repeat constructor. discriminate.
  - apply Forall_app. split; [exact F|]. repeat constructor. discriminate.
Qed.

Lemma synthesize_exceptions :
  choice_has_size rs ->
  List.length (t_exceptions (synthesize rs clock)) = 20%nat
  /\ Forall (fun x => ce_exception_date x <> None)
            (t_exceptions (synthesize rs clock)).
Proof.
  intros Hs. unfold synthesize, gen_tables. cbn [bind gen_monad].
  destruct (gen_employees rs _) as [employees_df w1].
  destruct (for_each employees_df (enroll_employee rs clock) [] w1) as [? w2].
  destruct (for_each employees_df (eligibility_row rs clock) [] w2) as [? w3].
  unfold choice.
  specialize (Hs (List.length (map e_employee_id employees_df)) 20%nat false None
                 (fst w3)).
  destruct (rs_choice rs _ (Some 20%nat) false None (fst w3)) as [ix g].
  cbn [fst] in Hs.
  pose proof (for_each_length _ exception_row_length
                (map (fun i => nth i (map e_employee_id employees_df) 0) ix)
                [] (g, snd w3)) as L.
  pose proof (for_each_forall _ _ exception_row_dated
                (map (fun i => nth i (map e_employee_id employees_df) 0) ix)
                [] (g, snd w3) (Forall_nil _)) as F.
  destruct (for_each _ (exception_row rs clock) [] (g, snd w3)) as [exs w5].
  cbn [fst snd t_exceptions ret gen_monad] in *. split; [|exact F].
  rewrite L, length_map, Hs. reflexivity.
Qed.

Lemma synthesize_exceptions_move_with_clock (delta : Z) :
  choice_has_size rs -> delta <> 0 ->
  t_exceptions (synthesize rs (fun k => clock k + delta))
  <> t_exceptions (synthesize rs clock).
Proof.
  intros Hs Hd E.
  rewrite (synthesize_shift rs clock (fun k => clock k + delta) delta) in E
    by reflexivity.
  destruct (synthesize_exceptions Hs) as (L & F).
  cbn [shift_tables t_exceptions] in E.
  destruct (t_exceptions (synthesize rs clock)) as [|x l]; [discriminate|].
  inversion F as [|? ? Hx _]; subst. cbn [map] in E.
  injection E as Ex _.
  apply (f_equal ce_exception_date) in Ex. cbn in Ex.
  destruct (ce_exception_date x) as [t|]; [|contradiction].
  cbn in Ex. inversion Ex. lia.
Qed.

End ExceptionsMove.

Lemma counter_rs_choice_has_size : choice_has_size counter_rs.
Proof. intros n size replace p g. cbn. now rewrite length_map, length_seq. Qed.

(* ================================================================== *)
(** * Further properties of the KPI block *)

Lemma bool_sum_nonneg (l : list bool) : 0 <= bool_sum l.
Proof. induction l as [|b t IH]; cbn [bool_sum]; [lia|]. destruct b; lia. Qed.

Lemma Qdiv_le_cross (a b c d : Z) :
  0 < b -> 0 < d -> a * d <= c * b ->
  (inject_Z a / inject_Z b <= inject_Z c / inject_Z d)%Q.
Proof.
  intros Hb Hd H.
  destruct b as [|b|b]; try lia. destruct d as [|d|d]; try lia.
  unfold Qle, Qdiv, Qmult, Qinv, inject_Z. cbn. nia.
Qed.

Lemma rate_of_percent (a b : Z) :
  0 <= a <= b -> (0 <= rate_of (R := Q) a b <= 100)%Q.
Proof.
  intros (La & Lb). unfold rate_of. cbn [of_int mul div ArithQ].
  destruct (b =? 0) eqn:B; [split; discriminate|].
  apply Z.eqb_neq in B.
  assert (L0 : (inject_Z 0 / inject_Z 1 <= inject_Z a / inject_Z b)%Q)
    by (apply Qdiv_le_cross; lia).
  assert (L1 : (inject_Z a / inject_Z b <= inject_Z 1 / inject_Z 1)%Q)
    by (apply Qdiv_le_cross; lia).
  change (inject_Z 0 / inject_Z 1)%Q with 0%Q in L0.
  change (inject_Z 1 / inject_Z 1)%Q with 1%Q in L1.
  change (inject_Z 100) with 100%Q. lra.
Qed.

Lemma exception_resolution_rate_bounds (exceptions_df : list ComplianceException) :
  (0 <= exception_resolution_rate (R := Q) exceptions_df <= 100)%Q.
Proof.
  rewrite exception_resolution_rate_unfold. apply rate_of_percent.
  pose proof (bool_sum_nonneg
    (map (fun x => cell_eq (ce_resolution_status x) "Open") exceptions_df)).
  pose proof (bool_sum_nonneg
    (map (fun x => cell_eq (ce_resolution_status x) "Resolved") exceptions_df)).
  unfold open_ex, resolved_ex. lia.
Qed.

(** X1: in exact arithmetic the exception resolution rate is a
    percentage, for every exceptions table. *)
Theorem exception_resolution_rate_percent (exceptions_df : list ComplianceException) :
  (0 <= exception_resolution_rate (R := Q) exceptions_df <= 100)%Q.
Proof. apply exception_resolution_rate_bounds. Qed.

Lemma overdue_count_zero (now : datetime) (enrollment_df : list Enrollment) :
  overdue_count now enrollment_df = 0 <->
  forall r, In r enrollment_df -> ~ Overdue now r.
Proof.
  unfold overdue_count. rewrite len_zero. split.
  - intros E r I O. apply overdue_row_iff in O.
    assert (In r (filter (overdue_row now) enrollment_df))
      by (apply filter_In; now split).
    rewrite E in *. contradiction.
  - intros N. destruct (filter (overdue_row now) enrollment_df) as [|r t] eqn:F;
      [reflexivity|].
    assert (I : In r (filter (overdue_row now) enrollment_df)) by (rewrite F; now left).
    apply filter_In in I as (I & O). apply overdue_row_iff in O.
    exfalso. now apply (N r).
Qed.

Lemma rate_of_full (a b : Z) :
  0 <= a <= b -> b <> 0 -> ((rate_of (R := Q) a b == 100)%Q <-> a = b).
Proof.
  intros (La & Lb) B. unfold rate_of. cbn [of_int mul div ArithQ].
  destruct (b =? 0) eqn:E; [apply Z.eqb_eq in E; contradiction|].
  destruct b as [|b|b]; try lia.
  unfold Qeq, Qdiv, Qmult, Qinv, inject_Z. cbn. split; intros H; nia.
Qed.

(** X2: in exact arithmetic the deadline adherence rate is a percentage,
    and on a non-empty enrollment table it is 100 exactly when no row is
    overdue. *)
Theorem deadline_adherence_rate_percent
    (now : datetime) (enrollment_df : list Enrollment) :
  exists q : Q,
    deadline_adherence_rate now enrollment_df = Value q
    /\ (0 <= q <= 100)%Q
    /\ (enrollment_df <> [] ->
        ((q == 100)%Q <-> forall r, In r enrollment_df -> ~ Overdue now r)).
Proof.
  eexists. split; [apply deadline_adherence_rate_unfold|].
  assert (B : 0 <= len enrollment_df - overdue_count now enrollment_df
              <= len enrollment_df).
  { pose proof (filter_length_le (overdue_row now) enrollment_df).
    pose proof (len_nonneg (filter (overdue_row now) enrollment_df)).
    unfold overdue_count. lia. }
  split; [now apply rate_of_percent|].
  intros NE. rewrite rate_of_full; [|exact B | now rewrite len_zero].
  rewrite <- overdue_count_zero. lia.
Qed.

Lemma enrolled_within_active (employees_df : list Employee)
    (enrollment_df : list Enrollment) :
  (forall r, In r enrollment_df -> be_enrollment_status r = Some "Enrolled" ->
     exists e, In e employees_df /\ e_employment_status e = Some "Active"
               /\ e_employee_id e = be_employee_id r) ->
  0 <= enrolled_unique enrollment_df <= active_employees employees_df.
Proof.
  intros H. split; [apply nunique_nonneg|].
  apply nunique_incl. intros i Hi.
  apply in_status_ids in Hi as (r & I & S & E).
  destruct (H r I S) as (e & Ie & Se & Ee).
  apply in_status_ids. exists e. repeat split; congruence.
Qed.

Lemma rate_of_nonneg (a b : Z) : 0 <= a -> 0 <= b -> (0 <= rate_of (R := Q) a b)%Q.
Proof.
  intros Ha Hb. unfold rate_of. cbn [of_int mul div ArithQ].
  destruct (b =? 0) eqn:B; [discriminate|]. apply Z.eqb_neq in B.
  assert (L : (inject_Z 0 / inject_Z 1 <= inject_Z a / inject_Z b)%Q)
    by (apply Qdiv_le_cross; lia).
  change (inject_Z 0 / inject_Z 1)%Q with 0%Q in L.
  change (inject_Z 100) with 100%Q. lra.
Qed.

(** X3: the enrollment rate never raises and is never negative, for every
    pair of tables; when every Enrolled row belongs to an active employee it
    is at most 100 (exact arithmetic). *)
Theorem enrollment_rate_percent (employees_df : list Employee)
    (enrollment_df : list Enrollment) :
  exists q : Q,
    enrollment_rate employees_df enrollment_df = Value q
    /\ (0 <= q)%Q
    /\ ((forall r, In r enrollment_df -> be_enrollment_status r = Some "Enrolled" ->
           exists e, In e employees_df /\ e_employment_status e = Some "Active"
                     /\ e_employee_id e = be_employee_id r) ->
        (q <= 100)%Q).
Proof.
  eexists. split; [apply enrollment_rate_unfold|]. split.
  - apply rate_of_nonneg; apply nunique_nonneg.
  - intros H. apply rate_of_percent. now apply enrolled_within_active.
Qed.

Lemma nine_enrolled_are_active (r : Enrollment) :
  In r nine_enrollments -> be_enrollment_status r = Some "Enrolled" ->
  exists e, In e nine_employees /\ e_employment_status e = Some "Active"
            /\ e_employee_id e = be_employee_id r.
Proof.
  intros I S. exists (mk_employee (be_employee_id r) 1 "Active").
  split; [|split; reflexivity].
  cbn in I. cbn.
  repeat (destruct I as [I|I]; [subst r; cbn; tauto|]). contradiction.
Qed.

Lemma enrollment_rate_percent_witness :
  exists q : Q,
    enrollment_rate nine_employees nine_enrollments = Value q /\ (0 <= q <= 100)%Q.
Proof.
  destruct (enrollment_rate_percent nine_employees nine_enrollments)
    as (q & E & L & U).
  exists q. split; [exact E|]. split; [exact L|].
  apply U. exact nine_enrolled_are_active.
Defined.

(** X4: when every Enrolled row belongs to an active employee, the overall
    compliance score is a percentage (exact arithmetic). *)
Theorem overall_compliance_score_percent
    (now : datetime) (employees_df : list Employee)
    (enrollment_df : list Enrollment) (exceptions_df : list ComplianceException) :
  (forall r, In r enrollment_df -> be_enrollment_status r = Some "Enrolled" ->
     exists e, In e employees_df /\ e_employment_status e = Some "Active"
               /\ e_employee_id e = be_employee_id r) ->
  exists m : Q,
    overall_compliance_score now employees_df enrollment_df exceptions_df = Value m
    /\ (0 <= m <= 100)%Q.
Proof.
  intros H. eexists. split; [apply overall_compliance_score_unfold|].
  pose proof (rate_of_percent _ _ (enrolled_within_active _ _ H)) as E.
  pose proof (exception_resolution_rate_bounds exceptions_df) as X.
  assert (B : 0 <= len enrollment_df - overdue_count now enrollment_df
              <= len enrollment_df).
  { pose proof (filter_length_le (overdue_row now) enrollment_df).
    pose proof (len_nonneg (filter (overdue_row now) enrollment_df)).
    unfold overdue_count. lia. }
  pose proof (rate_of_percent _ _ B) as D.
  cbn [div add of_int ArithQ]. change (inject_Z 3) with 3%Q. split.
  - apply Qle_shift_div_l; [reflexivity|]. lra.
  - apply Qle_shift_div_r; [reflexivity|]. lra.
Qed.

Lemma overall_compliance_score_percent_witness :
  exists m : Q,
    overall_compliance_score a_now nine_employees nine_enrollments nine_exceptions
    = Value m
    /\ (0 <= m <= 100)%Q.
Proof.
  apply (overall_compliance_score_percent a_now nine_employees nine_enrollments
           nine_exceptions).
  exact nine_enrolled_are_active.
Defined.

Lemma filter_perm {A} (f : A -> bool) (l l' : list A) :
  Permutation l l' -> Permutation (filter f l) (filter f l').
Proof.
  induction 1 as [|x l l' P IH|x y l|l l' l'' P1 IH1 P2 IH2]; cbn [filter].
  - constructor.
  - destruct (f x); [now constructor | exact IH].
  - destruct (f x), (f y); try reflexivity. apply perm_swap.
  - now transitivity (filter f l').
Qed.

Lemma nunique_perm (l l' : list Z) : Permutation l l' -> nunique l = nunique l'.
Proof.
  intros P. unfold nunique at 2. apply nunique_enumeration.
  - apply NoDup_nodup.
  - intros i. rewrite nodup_In. split; apply Permutation_in; [symmetry|]; exact P.
Qed.

Lemma bool_sum_perm {A} (f : A -> bool) (l l' : list A) :
  Permutation l l' -> bool_sum (map f l) = bool_sum (map f l').
Proof.
  intros P. rewrite !bool_sum_filter. unfold len. f_equal.
  apply Permutation_length. now apply filter_perm.
Qed.

(** X5: the KPIs do not depend on the order of the rows of the tables. *)
Theorem kpis_ignore_row_order {R : Type} `{Arith R} (now : datetime)
    (employees_df employees_df' : list Employee)
    (enrollment_df enrollment_df' : list Enrollment)
    (exceptions_df exceptions_df' : list ComplianceException) :
  Permutation employees_df employees_df' ->
  Permutation enrollment_df enrollment_df' ->
  Permutation exceptions_df exceptions_df' ->
  enrollment_rate employees_df enrollment_df
    = enrollment_rate employees_df' enrollment_df'
  /\ exception_resolution_rate exceptions_df = exception_resolution_rate exceptions_df'
  /\ deadline_adherence_rate now enrollment_df
     = deadline_adherence_rate now enrollment_df'
  /\ overall_compliance_score now employees_df enrollment_df exceptions_df
     = overall_compliance_score now employees_df' enrollment_df' exceptions_df'
  /\ pendings enrollment_df = pendings enrollment_df'
  /\ open_ex exceptions_df = open_ex exceptions_df'.
Proof.
  intros Pe Pb Px.
  assert (Ea : active_employees employees_df = active_employees employees_df').
  { unfold active_employees. apply nunique_perm, Permutation_map, filter_perm, Pe. }
  assert (Eu : enrolled_unique enrollment_df = enrolled_unique enrollment_df').
  { unfold enrolled_unique. apply nunique_perm, Permutation_map, filter_perm, Pb. }
  assert (El : len enrollment_df = len enrollment_df').
  { unfold len. f_equal. now apply Permutation_length. }
  assert (Eo : overdue_count now enrollment_df = overdue_count now enrollment_df').
  { unfold overdue_count, len. f_equal. apply Permutation_length, filter_perm, Pb. }
  assert (Ex : open_ex exceptions_df = open_ex exceptions_df')
    by (unfold open_ex; now apply bool_sum_perm).
  assert (Er : resolved_ex exceptions_df = resolved_ex exceptions_df')
    by (unfold resolved_ex; now apply bool_sum_perm).
  assert (Xr : exception_resolution_rate exceptions_df
               = exception_resolution_rate exceptions_df')
    by (rewrite !exception_resolution_rate_unfold; now rewrite Ex, Er).
  split; [rewrite !enrollment_rate_unfold; now rewrite Ea, Eu|].
  split; [exact Xr|].
  split; [rewrite !deadline_adherence_rate_unfold; now rewrite El, Eo|].
  split; [rewrite !overall_compliance_score_unfold; now rewrite Ea, Eu, El, Eo, Xr|].
  split; [unfold pendings; now apply bool_sum_perm | exact Ex].
Qed.

Lemma kpis_ignore_row_order_witness :
  deadline_adherence_rate (R := Q) a_now
    [mk_enrollment 1 1 1 None "Enrolled"; mk_enrollment 2 1 2 (Some a_past) "Pending"]
  = deadline_adherence_rate (R := Q) a_now
    [mk_enrollment 2 1 2 (Some a_past) "Pending"; mk_enrollment 1 1 1 None "Enrolled"].
Proof.
  apply (kpis_ignore_row_order (R := Q) a_now two_employees two_employees
           [mk_enrollment 1 1 1 None "Enrolled";
            mk_enrollment 2 1 2 (Some a_past) "Pending"]
           [mk_enrollment 2 1 2 (Some a_past) "Pending";
            mk_enrollment 1 1 1 None "Enrolled"]
           mixed_exceptions mixed_exceptions).
  - apply Permutation_refl.
  - apply perm_swap.
  - apply Permutation_refl.
Defined.

Lemma rate_of_le (a b c d : Z) :
  0 <= a -> 0 <= c -> 0 <= b -> 0 < d -> a * d <= c * b ->
  (rate_of (R := Q) a b <= rate_of (R := Q) c d)%Q.
Proof.
  intros Ha Hc Hb Hd H. unfold rate_of. cbn [of_int mul div ArithQ].
  destruct (d =? 0) eqn:D; [apply Z.eqb_eq in D; lia|].
  change (inject_Z 100) with 100%Q.
  destruct (b =? 0) eqn:B.
  - assert (L : (inject_Z 0 / inject_Z 1 <= inject_Z c / inject_Z d)%Q)
      by (apply Qdiv_le_cross; lia).
    change (inject_Z 0 / inject_Z 1)%Q with 0%Q in L.
    change (inject_Z 0) with 0%Q. lra.
  - apply Z.eqb_neq in B.
    assert (L : (inject_Z a / inject_Z b <= inject_Z c / inject_Z d)%Q)
      by (apply Qdiv_le_cross; lia).
    lra.
Qed.

(** X6: in exact arithmetic, one more Resolved exception never lowers the
    exception resolution rate and one more Open exception never raises it. *)
Theorem exception_resolution_rate_monotone
    (x : ComplianceException) (exceptions_df : list ComplianceException) :
  (ce_resolution_status x = Some "Resolved" ->
   (exception_resolution_rate (R := Q) exceptions_df
    <= exception_resolution_rate (R := Q) (x :: exceptions_df))%Q)
  /\ (ce_resolution_status x = Some "Open" ->
      (exception_resolution_rate (R := Q) (x :: exceptions_df)
       <= exception_resolution_rate (R := Q) exceptions_df)%Q).
Proof.
  pose proof (bool_sum_nonneg
    (map (fun x => cell_eq (ce_resolution_status x) "Open") exceptions_df)) as Ho.
  pose proof (bool_sum_nonneg
    (map (fun x => cell_eq (ce_resolution_status x) "Resolved") exceptions_df)) as Hr.
  fold (open_ex exceptions_df) in Ho. fold (resolved_ex exceptions_df) in Hr.
  rewrite !exception_resolution_rate_unfold.
  unfold open_ex, resolved_ex. cbn [map bool_sum].
  fold (open_ex exceptions_df). fold (resolved_ex exceptions_df).
  split; intros S; rewrite S; cbn [cell_eq String.eqb Ascii.eqb Bool.eqb].
  - apply rate_of_le; nia.
  - destruct (open_ex exceptions_df + resolved_ex exceptions_df =? 0) eqn:Z0.
    + apply Z.eqb_eq in Z0.
      assert (E : resolved_ex exceptions_df = 0) by lia.
      assert (E' : open_ex exceptions_df = 0) by lia.
      rewrite E, E'. unfold Qle. cbn. lia.
    + apply Z.eqb_neq in Z0. apply rate_of_le; nia.
Qed.

Lemma exception_resolution_rate_monotone_witness :
  (exception_resolution_rate (R := Q) mixed_exceptions
   <= exception_resolution_rate (R := Q)
        (mk_exception 9 1 (Some "Resolved") :: mixed_exceptions))%Q.
Proof.
  apply (exception_resolution_rate_monotone
           (mk_exception 9 1 (Some "Resolved")) mixed_exceptions).
  reflexivity.
Defined.

(* ================================================================== *)
(** * Further properties of the queries *)

(** ** ORDER BY *)

Lemma insert_by_hdrel {A} (before : A -> A -> bool) (R : A -> A -> Prop)
    (y x : A) (l : list A) :
  R y x -> HdRel R y l -> HdRel R y (insert_by before x l).
Proof.
  intros Ryx H. destruct l as [|z t]; cbn [insert_by]; [now constructor|].
  destruct (before z x); constructor; [|exact Ryx]. now inversion H.
Qed.

Lemma insert_by_sorted {A} (before : A -> A -> bool) (x : A) (l : list A) :
  (forall a b, before a b = true -> before b a = false) ->
  Sorted (fun a b => before b a = false) l ->
  Sorted (fun a b => before b a = false) (insert_by before x l).
Proof.
  intros Asym S. induction S as [|y t St IH Hd]; cbn [insert_by].
  - repeat constructor.
  - destruct (before y x) eqn:B.
    + constructor; [exact IH|]. apply insert_by_hdrel; [|exact Hd].
      now apply Asym.
    + constructor; [now constructor|]. now constructor.
Qed.

Lemma order_by_sorted {A} (before : A -> A -> bool) (l : list A) :
  (forall a b, before a b = true -> before b a = false) ->
  Sorted (fun a b => before b a = false) (order_by before l).
Proof.
  intros Asym. induction l as [|x t IH]; unfold order_by; cbn [fold_right].
  - constructor.
  - now apply insert_by_sorted.
Qed.

Lemma sorted_weaken {A} (R S : A -> A -> Prop) (l : list A) :
  (forall a b, R a b -> S a b) -> Sorted R l -> Sorted S l.
Proof.
  intros W H. induction H as [|x t St IH Hd]; constructor; [exact IH|].
  destruct Hd; constructor. now apply W.
Qed.

(** ** The status summary *)

Lemma total_ct_perm (q q' : list StatusCount) :
  Permutation q q' -> total_ct q = total_ct q'.
Proof.
  unfold total_ct. induction 1; cbn [map fold_right]; lia.
Qed.

Lemma count_occ_sum_cons (col ks : list (option string)) (x : option string) :
  fold_right Z.add 0
    (map (fun k => Z.of_nat (count_occ cell_dec (x :: col) k)) ks)
  = fold_right Z.add 0 (map (fun k => Z.of_nat (count_occ cell_dec col k)) ks)
    + Z.of_nat (count_occ cell_dec ks x).
Proof.
  induction ks as [|k t IH]; [reflexivity|].
  cbn [map fold_right]. rewrite IH. cbn [count_occ].
  destruct (cell_dec x k) as [E|N]; destruct (cell_dec k x) as [E'|N'];
    try congruence; lia.
Qed.

Lemma count_occ_sum_nodup (col : list (option string)) :
  fold_right Z.add 0
    (map (fun k => Z.of_nat (count_occ cell_dec col k)) (nodup cell_dec col))
  = Z.of_nat (List.length col).
Proof.
  induction col as [|x t IH]; [reflexivity|].
  rewrite count_occ_sum_cons. cbn [nodup].
  destruct (in_dec cell_dec x t) as [I|N].
  - rewrite IH.
    assert (C : count_occ cell_dec (nodup cell_dec t) x = 1%nat).
    { apply NoDup_count_occ'; [apply NoDup_nodup | now apply nodup_In]. }
    rewrite C. cbn [List.length]. lia.
  - cbn [map fold_right count_occ].
    destruct (cell_dec x x) as [_|F]; [|contradiction].
    rewrite IH.
    assert (C : count_occ cell_dec (nodup cell_dec t) x = 0%nat).
    { apply count_occ_not_In. now rewrite nodup_In. }
    assert (C' : count_occ cell_dec t x = 0%nat) by now apply count_occ_not_In.
    rewrite C, C'. cbn [List.length]. lia.
Qed.

(** X7: the counts of the status summary add up to the number of
    enrollment rows, whatever the statuses are (missing ones included). *)
Theorem status_summary_counts_every_row (benefits_enrollment : list Enrollment) :
  total_ct (q_enrollment_status benefits_enrollment) = len benefits_enrollment.
Proof.
  unfold q_enrollment_status. cbv zeta.
  rewrite (total_ct_perm _ _ (order_by_perm _ _)).
  unfold total_ct. rewrite map_map. cbn [sc_ct].
  rewrite count_occ_sum_nodup. unfold len. now rewrite length_map.
Qed.

(** X8: the status summary has exactly one row for each status that
    occurs, with the number of rows that have it, and lists the rows by
    descending count. *)
Theorem status_summary_rows (benefits_enrollment : list Enrollment) :
  let col := map be_enrollment_status benefits_enrollment in
  let q := q_enrollment_status benefits_enrollment in
  NoDup (map sc_enrollment_status q)
  /\ (forall row, In row q <->
        In (sc_enrollment_status row) col
        /\ sc_ct row = Z.of_nat (count_occ cell_dec col (sc_enrollment_status row)))
  /\ (forall row, In row q -> 1 <= sc_ct row)
  /\ StronglySorted (fun x y => sc_ct y <= sc_ct x) q.
Proof.
  cbv zeta. unfold q_enrollment_status. cbv zeta.
  set (col := map be_enrollment_status benefits_enrollment).
  set (mk := fun k => {| sc_enrollment_status := k;
                         sc_ct := Z.of_nat (count_occ cell_dec col k) |}).
  set (q := order_by _ _).
  assert (P : Permutation q (map mk (nodup cell_dec col))) by apply order_by_perm.
  assert (K : map sc_enrollment_status (map mk (nodup cell_dec col))
              = nodup cell_dec col).
  { rewrite map_map. cbn. apply map_id. }
  assert (M : forall row, In row q <->
                In (sc_enrollment_status row) col
                /\ sc_ct row
                   = Z.of_nat (count_occ cell_dec col (sc_enrollment_status row))).
  { intros row. split.
    - intros I. apply (Permutation_in _ P) in I.
      apply in_map_iff in I as (k & E & Ik). subst row. cbn.
      split; [now apply nodup_In in Ik | reflexivity].
    - intros (I & C). apply (Permutation_in _ (Permutation_sym P)).
      apply in_map_iff. exists (sc_enrollment_status row). split.
      + destruct row as [s c]. cbn in *. unfold mk. now rewrite C.
      + now apply nodup_In. }
  split; [|split; [exact M|split]].
  - eapply Permutation_NoDup.
    + symmetry. apply Permutation_map. exact P.
    + rewrite K. apply NoDup_nodup.
  - intros row I. apply M in I as (I & C). rewrite C.
    apply (count_occ_In cell_dec) in I. lia.
  - apply Sorted_StronglySorted.
    + intros x y z Hxy Hyz. lia.
    + apply (sorted_weaken (fun a b => (sc_ct a <? sc_ct b) = false)).
      * intros a b E. apply Z.ltb_ge in E. exact E.
      * apply (order_by_sorted (fun y x => sc_ct x <? sc_ct y)).
        intros a b E. apply Z.ltb_lt in E. apply Z.ltb_ge. lia.
Qed.

(** ** The department overview *)

Section DeptRows.
Variable departments : list Department.
Variable employees : list Employee.
Variable benefits_enrollment : list Enrollment.
Variable compliance_exceptions : list ComplianceException.

Let js := dept_joined departments employees benefits_enrollment
            compliance_exceptions.

Lemma dept_joined_department (d : Department) :
  In d departments -> exists j, In j js /\ j_d j = d.
Proof.
  intros Id.
  destruct (left_join_total
              (fun d e => d_department_id d =? e_department_id e)
              departments employees d Id) as (oe & I1).
  destruct (left_join_total
              (fun (de : Department * option Employee) (en : Z) =>
                 on_employee (fun i : Z => i) (snd de) en)
              _ (enrolled benefits_enrollment) _ I1) as (oen & I2).
  destruct (left_join_total
              (fun (de : (Department * option Employee) * option Z)
                   (ce : ComplianceException) =>
                 on_employee ce_employee_id (snd (fst de)) ce)
              _ compliance_exceptions _ I2) as (oce & I3).
  exists (((d, oe), oen), oce). split; [exact I3 | reflexivity].
Qed.

Lemma dept_joined_exception_in (j : Joined) (ce : ComplianceException) :
  In j js -> j_ce j = Some ce ->
  In ce compliance_exceptions
  /\ exists e, j_e j = Some e /\ e_employee_id e = ce_employee_id ce.
Proof.
  destruct j as [[[d oe] oen] oce]. unfold js, dept_joined, j_e, j_ce.
  cbn [fst snd]. intros I E. subst oce.
  apply left_join_in in I as (_ & Ice & O). cbn [fst snd] in O.
  split; [exact Ice|]. now apply on_employee_true in O.
Qed.

Lemma dept_joined_exception (d : Department) (e : Employee)
    (ce : ComplianceException) :
  In d departments -> In e employees ->
  d_department_id d = e_department_id e ->
  In ce compliance_exceptions -> e_employee_id e = ce_employee_id ce ->
  exists j, In j js /\ j_d j = d /\ j_e j = Some e /\ j_ce j = Some ce.
Proof.
  intros Id Ie O Ice Oce.
  assert (I1 : In (d, Some e)
                 (left_join (fun d e => d_department_id d =? e_department_id e)
                    departments employees)).
  { apply left_join_complete; auto. now apply Z.eqb_eq. }
  destruct (left_join_total
              (fun (de : Department * option Employee) (en : Z) =>
                 on_employee (fun i : Z => i) (snd de) en)
              _ (enrolled benefits_enrollment) _ I1) as (oen & I2).
  exists (((d, Some e), oen), Some ce). split; [|auto].
  unfold js, dept_joined. apply left_join_complete; auto.
  cbn. now apply Z.eqb_eq.
Qed.

Lemma group_open_exception_ids (name : string) (i : Z) :
  In i (non_null (map open_exception_id (dept_group js name)))
  <-> dept_open_exception departments employees compliance_exceptions name i.
Proof.
  rewrite in_non_null, in_map_iff.
  unfold dept_group, dept_open_exception, dept_employee, open_exception_id. split.
  - intros (j & E & I). apply filter_In in I as (I & N).
    apply String.eqb_eq in N.
    destruct (j_ce j) as [ce|] eqn:Jce; [|discriminate].
    destruct (cell_eq (ce_resolution_status ce) "Open") eqn:C; [|discriminate].
    inversion E; subst i. apply cell_eq_true in C.
    destruct (dept_joined_exception_in j ce I Jce) as (Ice & e & Je & Ee).
    destruct (dept_joined_in departments employees benefits_enrollment
                compliance_exceptions j I) as (Id & He & _).
    destruct (He e Je) as (Ie & O).
    exists ce. repeat split; auto. exists (j_d j), e. auto.
  - intros (ce & Ice & C & E & d & e & Id & Ie & N & O & Ee).
    destruct (dept_joined_exception d e ce Id Ie O Ice Ee) as (j & I & Jd & _ & Jce).
    exists j. split.
    + rewrite Jce. rewrite (proj2 (cell_eq_true _ _) C). now rewrite E.
    + apply filter_In. split; [exact I|]. rewrite Jd. now apply String.eqb_eq.
Qed.

Lemma dept_names (name : string) :
  In name (map (fun j => d_department_name (j_d j)) js)
  <-> exists d, In d departments /\ d_department_name d = name.
Proof.
  rewrite in_map_iff. split.
  - intros (j & E & I). exists (j_d j). split; [|exact E].
    now apply (dept_joined_in departments employees benefits_enrollment
                 compliance_exceptions j).
  - intros (d & Id & E). destruct (dept_joined_department d Id) as (j & I & Jd).
    exists j. split; [now rewrite Jd | exact I].
Qed.

End DeptRows.

(** X9: the department overview has exactly one row for each department
    name of the departments table, also for departments without employees. *)
Theorem dept_overview_one_row_per_name
    (departments : list Department) (employees : list Employee)
    (benefits_enrollment : list Enrollment)
    (compliance_exceptions : list ComplianceException) :
  let q := q_dept_overview departments employees benefits_enrollment
             compliance_exceptions in
  NoDup (map ov_department_name q)
  /\ forall name, In name (map ov_department_name q) <->
                  exists d, In d departments /\ d_department_name d = name.
Proof.
  cbv zeta. unfold q_dept_overview. cbv zeta.
  set (js := dept_joined _ _ _ _).
  set (names := nodup string_dec (map (fun j => d_department_name (j_d j)) js)).
  assert (P : Permutation
                (map ov_department_name
                   (order_by rate_before
                      (map (fun name => dept_row name (dept_group js name)) names)))
                names).
  { rewrite (Permutation_map _ (order_by_perm _ _)).
    rewrite map_map. cbn [dept_row ov_department_name]. now rewrite map_id. }
  split.
  - apply (Permutation_NoDup (Permutation_sym P)). apply NoDup_nodup.
  - intros name.
    rewrite <- (dept_names departments employees benefits_enrollment
                  compliance_exceptions name).
    fold js. transitivity (In name names).
    + split; apply Permutation_in; [exact P | symmetry; exact P].
    + apply nodup_In.
Qed.

Lemma rate_before_asym (a b : DeptOverview) :
  rate_before a b = true -> rate_before b a = false.
Proof.
  unfold rate_before.
  destruct (ov_enrollment_rate a) as [x|], (ov_enrollment_rate b) as [y|];
    try reflexivity; try discriminate.
  rewrite negb_true_iff, negb_false_iff. intros E.
  apply Qle_bool_iff. destruct (Qlt_le_dec x y) as [L|L].
  - apply Qlt_le_weak in L. apply Qle_bool_iff in L. congruence.
  - exact L.
Qed.

Lemma rate_ge_trans (a b c : option Q) : rate_ge a b -> rate_ge b c -> rate_ge a c.
Proof.
  destruct a, b, c; cbn; try tauto. intros H1 H2. now apply Qle_trans with q0.
Qed.

(** X10: the department overview is ordered by descending enrollment rate,
    the departments with a NULL rate last. *)
Theorem dept_overview_ordered
    (departments : list Department) (employees : list Employee)
    (benefits_enrollment : list Enrollment)
    (compliance_exceptions : list ComplianceException) :
  StronglySorted (fun x y => rate_ge (ov_enrollment_rate x) (ov_enrollment_rate y))
    (q_dept_overview departments employees benefits_enrollment
       compliance_exceptions).
Proof.
  unfold q_dept_overview. cbv zeta. apply Sorted_StronglySorted.
  - intros x y z. apply rate_ge_trans.
  - apply (sorted_weaken (fun a b => rate_before b a = false)).
    + intros a b. unfold rate_before, rate_ge.
      destruct (ov_enrollment_rate b) as [y|], (ov_enrollment_rate a) as [x|];
        try tauto; try discriminate.
      rewrite negb_false_iff. apply Qle_bool_iff.
    + apply order_by_sorted. apply rate_before_asym.
Qed.

(** X11: in every row of the department overview, [open_exceptions] is the
    number of distinct Open exceptions of the employees of the departments
    with that name. *)
Theorem dept_overview_open_exceptions
    (departments : list Department) (employees : list Employee)
    (benefits_enrollment : list Enrollment)
    (compliance_exceptions : list ComplianceException)
    (row : DeptOverview) (ids : list Z) :
  In row (q_dept_overview departments employees benefits_enrollment
            compliance_exceptions) ->
  NoDup ids ->
  (forall i, In i ids <->
     dept_open_exception departments employees compliance_exceptions
       (ov_department_name row) i) ->
  ov_open_exceptions row = len ids.
Proof.
  intros I ND M. apply q_dept_overview_rows in I.
  remember (ov_department_name row) as name eqn:En. clear En.
  rewrite I. cbn [dept_row ov_open_exceptions]. unfold count_distinct.
  apply nunique_enumeration; [exact ND|].
  intros i. rewrite M. symmetry. apply group_open_exception_ids.
Qed.

Lemma finance_open_exception_ids (i : Z) :
  In i [1] <-> dept_open_exception two_departments two_employees mixed_exceptions
                 "Finance" i.
Proof.
  unfold dept_open_exception. split.
  - intros [E|[]]. subst i. exists (mk_exception 1 1 (Some "Open")).
    cbn. repeat split; auto. apply finance_employee_ids. cbn. tauto.
  - intros (ce & [E|[E|[E|[E|[]]]]] & S & Ei & _); subst ce i; cbn in *;
      try discriminate; tauto.
Qed.

Lemma dept_overview_open_exceptions_witness :
  ov_open_exceptions
    {| ov_department_name := "Finance"; ov_total_employees := 2;
       ov_enrolled_employees := 1; ov_enrollment_rate := Some 50%Q;
       ov_open_exceptions := 1 |} = len [1].
Proof.
  apply (dept_overview_open_exceptions two_departments two_employees
           inactive_enrolled mixed_exceptions _ [1]).
  - vm_compute. left. reflexivity.
  - repeat constructor; cbn; tauto.
  - exact finance_open_exception_ids.
Defined.

(** ** The overdue elections *)

Lemma before_current_date_date_lt (c : option datetime) (today : Z) :
  before_current_date c today = date_lt c today.
Proof.
  destruct c as [t|]; [|reflexivity]. cbn. unfold dt_date, usec_per_day.
  destruct (t <? today * 86400000000) eqn:E; symmetry.
  - apply Z.ltb_lt in E. apply Z.ltb_lt.
    apply Z.div_lt_upper_bound; lia.
  - apply Z.ltb_ge in E. apply Z.ltb_ge.
    apply Z.div_le_lower_bound; lia.
Qed.

Lemma sql_ne_true (c : option string) (s : string) :
  sql_ne c s = true <-> exists x, c = Some x /\ x <> s.
Proof.
  destruct c as [x|]; cbn.
  - rewrite negb_true_iff, String.eqb_neq. split.
    + intros N. now exists x.
    + intros (y & E & N). now inversion E; subst.
  - split; [discriminate|]. intros (x & E & _). discriminate.
Qed.

Lemma inner_join_in {A B} (on : A -> B -> bool) (l : list A) (r : list B)
    (a : A) (b : B) :
  In (a, b) (inner_join on l r) <-> In a l /\ In b r /\ on a b = true.
Proof.
  unfold inner_join. rewrite in_flat_map. split.
  - intros (a0 & Ia & I). apply in_map_iff in I as (b0 & E & Ib).
    inversion E; subst. apply filter_In in Ib. tauto.
  - intros (Ia & Ib & O). exists a. split; [exact Ia|].
    apply in_map_iff. exists b. split; [reflexivity|]. apply filter_In. now split.
Qed.

Lemma q_overdue_in (today : Z) (employees : list Employee)
    (benefits_enrollment : list Enrollment) (departments : list Department)
    (row : OverdueRow) :
  In row (q_overdue today employees benefits_enrollment departments) <->
  exists e be d,
    In e employees /\ In be benefits_enrollment /\ In d departments
    /\ e_employee_id e = be_employee_id be
    /\ e_department_id e = d_department_id d
    /\ (exists t, be_election_deadline be = Some t /\ dt_date t < today)
    /\ (exists s, be_enrollment_status be = Some s /\ s <> "Enrolled")
    /\ row = overdue_select ((e, be), d).
Proof.
  unfold q_overdue. split.
  - intros I. apply (Permutation_in _ (order_by_perm _ _)) in I.
    apply in_map_iff in I as ([[e be] d] & E & I).
    apply filter_In in I as (I & W).
    apply inner_join_in in I as (I & Id & Od).
    apply inner_join_in in I as (Ie & Ib & Ob).
    cbn [fst snd] in Od. apply Z.eqb_eq in Od, Ob.
    unfold overdue_where in W. cbn [fst snd] in W.
    apply andb_true_iff in W as (W1 & W2).
    rewrite before_current_date_date_lt in W1. apply sql_ne_true in W2.
    exists e, be, d. repeat split; auto.
    destruct (be_election_deadline be) as [t|]; [|discriminate].
    exists t. split; [reflexivity|]. now apply Z.ltb_lt.
  - intros (e & be & d & Ie & Ib & Id & Ob & Od & (t & Et & Lt) & Hs & E).
    apply (Permutation_in _ (Permutation_sym (order_by_perm _ _))).
    apply in_map_iff. exists ((e, be), d). split; [now symmetry|].
    apply filter_In. split.
    + apply inner_join_in. split; [|split; [exact Id | now apply Z.eqb_eq]].
      apply inner_join_in. split; [exact Ie|]. split; [exact Ib|].
      now apply Z.eqb_eq.
    + unfold overdue_where. cbn [fst snd]. apply andb_true_iff. split.
      * rewrite before_current_date_date_lt, Et. now apply Z.ltb_lt.
      * now apply sql_ne_true.
Qed.

(** X12: the overdue list holds exactly the combinations of an employee,
    one of the employee's enrollment rows and the employee's department in
    which the election deadline falls on a day before the current date and
    the status is present and not Enrolled. *)
Theorem q_overdue_rows (today : Z) (employees : list Employee)
    (benefits_enrollment : list Enrollment) (departments : list Department)
    (row : OverdueRow) :
  In row (q_overdue today employees benefits_enrollment departments) <->
  exists e be d,
    In e employees /\ In be benefits_enrollment /\ In d departments
    /\ e_employee_id e = be_employee_id be
    /\ e_department_id e = d_department_id d
    /\ (exists t, be_election_deadline be = Some t /\ dt_date t < today)
    /\ (exists s, be_enrollment_status be = Some s /\ s <> "Enrolled")
    /\ row = overdue_select ((e, be), d).
Proof. apply q_overdue_in. Qed.

Lemma deadline_before_asym (a b : OverdueRow) :
  deadline_before a b = true -> deadline_before b a = false.
Proof.
  unfold deadline_before.
  destruct (od_election_deadline a), (od_election_deadline b);
    try reflexivity; try discriminate.
  intros E. apply Z.ltb_lt in E. apply Z.ltb_ge. lia.
Qed.

Lemma q_overdue_sorted (today : Z) (employees : list Employee)
    (benefits_enrollment : list Enrollment) (departments : list Department) :
  StronglySorted
    (fun x y => deadline_le (od_election_deadline x) (od_election_deadline y))
    (q_overdue today employees benefits_enrollment departments).
Proof.
  unfold q_overdue. apply Sorted_StronglySorted.
  - intros x y z. unfold deadline_le.
    destruct (od_election_deadline x), (od_election_deadline y),
      (od_election_deadline z); try tauto. lia.
  - apply (sorted_weaken (fun a b => deadline_before b a = false)).
    + intros a b. unfold deadline_before, deadline_le.
      destruct (od_election_deadline b), (od_election_deadline a);
        try tauto; try discriminate.
      intros E. apply Z.ltb_ge in E. exact E.
    + apply order_by_sorted. apply deadline_before_asym.
Qed.

(** X13: the overdue list is in ascending order of election deadline, and
    every row of it has a deadline. *)
Theorem q_overdue_ordered (today : Z) (employees : list Employee)
    (benefits_enrollment : list Enrollment) (departments : list Department) :
  let q := q_overdue today employees benefits_enrollment departments in
  StronglySorted
    (fun x y => deadline_le (od_election_deadline x) (od_election_deadline y)) q
  /\ forall row, In row q -> od_election_deadline row <> None.
Proof.
  cbv zeta. split; [apply q_overdue_sorted|].
  - intros row I. apply q_overdue_in in I
      as (e & be & d & _ & _ & _ & _ & _ & (t & Et & _) & _ & E).
    subst row. cbn. rewrite Et. discriminate.
Qed.

(** Counting the rows of a join on a key that is unique on one side. *)
Lemma filter_key_unique {A} (key : A -> Z) (k : Z) (l : list A) :
  NoDup (map key l) ->
  List.length (filter (fun y => k =? key y) l)
  = if existsb (fun y => k =? key y) l then 1%nat else 0%nat.
Proof.
  induction l as [|y t IH]; intros ND; [reflexivity|].
  cbn [map] in ND. inversion ND as [|? ? Ny NDt]; subst.
  cbn [filter existsb]. destruct (k =? key y) eqn:E; cbn [orb List.length].
  - apply Z.eqb_eq in E. subst k. rewrite (IH NDt).
    destruct (existsb (fun y0 => key y =? key y0) t) eqn:X; [|reflexivity].
    apply existsb_exists in X as (z & Iz & Ez). apply Z.eqb_eq in Ez.
    exfalso. apply Ny. rewrite Ez. now apply in_map.
  - now apply IH.
Qed.

Lemma inner_join_unique_right {A B} (keyA : A -> Z) (keyB : B -> Z)
    (w : A -> bool) (l : list A) (r : list B) :
  NoDup (map keyB r) ->
  (forall a, In a l -> exists b, In b r /\ keyA a = keyB b) ->
  List.length (filter (fun ab => w (fst ab))
                 (inner_join (fun a b => keyA a =? keyB b) l r))
  = List.length (filter w l).
Proof.
  intros ND Hex. induction l as [|a t IH]; [reflexivity|].
  unfold inner_join in *. cbn [flat_map filter].
  rewrite filter_app, length_app, IH by (intros a' I; apply Hex; now right).
  assert (L : List.length (filter (fun b => keyA a =? keyB b) r) = 1%nat).
  { rewrite (filter_key_unique keyB (keyA a) r ND).
    destruct (Hex a (or_introl eq_refl)) as (b & Ib & E).
    assert (X : existsb (fun y => keyA a =? keyB y) r = true).
    { apply existsb_exists. exists b. split; [exact Ib | now apply Z.eqb_eq]. }
    now rewrite X. }
  destruct (filter (fun b => keyA a =? keyB b) r) as [|b [|b' m]];
    try discriminate.
  cbn [map filter fst]. destruct (w a); reflexivity.
Qed.

Lemma filter_disjoint_length {A} (f g : A -> bool) (l : list A) :
  (forall a, In a l -> f a = true -> g a = false) ->
  (List.length (filter f l) + List.length (filter g l))%nat
  = List.length (filter (fun a => f a || g a) l).
Proof.
  induction l as [|a t IH]; intros D; [reflexivity|].
  cbn [filter]. specialize (IH (fun a' I => D a' (or_intror I))).
  pose proof (D a (or_introl eq_refl)) as Da.
  destruct (f a) eqn:F; cbn [orb].
  - rewrite (Da eq_refl). cbn [List.length]. lia.
  - destruct (g a); cbn [List.length]; lia.
Qed.

Lemma inner_join_unique_left {A B} (keyA : A -> Z) (keyB : B -> Z)
    (w : B -> bool) (l : list A) (r : list B) :
  NoDup (map keyA l) ->
  List.length (filter (fun ab => w (snd ab))
                 (inner_join (fun a b => keyA a =? keyB b) l r))
  = List.length
      (filter (fun b => w b && existsb (fun a => keyA a =? keyB b) l) r).
Proof.
  induction l as [|a t IH]; intros ND.
  - cbn. induction r as [|b m IHr]; [reflexivity|].
    cbn [filter existsb]. now rewrite andb_false_r.
  - cbn [map] in ND. inversion ND as [|? ? Na NDt]; subst.
    unfold inner_join in *. cbn [flat_map].
    rewrite filter_app, length_app, (IH NDt).
    assert (E1 : List.length
                   (filter (fun ab : A * B => w (snd ab))
                      (map (fun b => (a, b))
                         (filter (fun b => keyA a =? keyB b) r)))
                 = List.length
                     (filter (fun b => w b && (keyA a =? keyB b)) r)).
    { clear. induction r as [|b m IHr]; [reflexivity|].
      cbn [filter]. destruct (keyA a =? keyB b); cbn [map filter snd].
      - rewrite andb_true_r. destruct (w b); cbn [List.length]; now rewrite IHr.
      - now rewrite andb_false_r. }
    rewrite E1, filter_disjoint_length.
    + f_equal. apply filter_ext. intros b. cbn [existsb].
      destruct (w b); reflexivity.
    + intros b _ H. apply andb_true_iff in H as (_ & H). apply Z.eqb_eq in H.
      apply andb_false_iff. right.
      destruct (existsb (fun a0 => keyA a0 =? keyB b) t) eqn:X; [|reflexivity].
      apply existsb_exists in X as (a' & Ia & Ea). apply Z.eqb_eq in Ea.
      exfalso. apply Na. rewrite H, <- Ea. now apply in_map.
Qed.

Lemma order_by_length {A} (before : A -> A -> bool) (l : list A) :
  List.length (order_by before l) = List.length l.
Proof. apply Permutation_length, order_by_perm. Qed.

Lemma q_overdue_length (now : datetime)
    (employees : list Employee) (benefits_enrollment : list Enrollment)
    (departments : list Department) :
  NoDup (map e_employee_id employees) ->
  NoDup (map d_department_id departments) ->
  (forall be, In be benefits_enrollment ->
     exists e, In e employees /\ e_employee_id e = be_employee_id be) ->
  (forall e, In e employees ->
     exists d, In d departments /\ e_department_id e = d_department_id d) ->
  (forall be, In be benefits_enrollment -> be_enrollment_status be <> None) ->
  len (q_overdue (dt_date now) employees benefits_enrollment departments)
  = overdue_count now benefits_enrollment.
Proof.
  intros NDe NDd Hbe Hed Hst. unfold q_overdue, overdue_count, len. f_equal.
  rewrite order_by_length, length_map.
  set (w := fun be => before_current_date (be_election_deadline be) (dt_date now)
                      && sql_ne (be_enrollment_status be) "Enrolled").
  rewrite (filter_ext (overdue_where (dt_date now))
             (fun ab => (fun eb : Employee * Enrollment => w (snd eb)) (fst ab)))
    by reflexivity.
  rewrite (inner_join_unique_right
             (fun eb : Employee * Enrollment => e_department_id (fst eb))
             d_department_id (fun eb => w (snd eb))).
  - rewrite (inner_join_unique_left e_employee_id be_employee_id w) by exact NDe.
    f_equal. apply filter_ext_in. intros be I.
    assert (X : existsb (fun a => e_employee_id a =? be_employee_id be) employees
                = true).
    { destruct (Hbe be I) as (e & Ie & E). apply existsb_exists.
      exists e. split; [exact Ie | now apply Z.eqb_eq]. }
    rewrite X, andb_true_r. unfold w, overdue_row.
    rewrite before_current_date_date_lt. f_equal.
    unfold sql_ne, cell_ne, cell_eq.
    destruct (be_enrollment_status be) eqn:S; [reflexivity|].
    exfalso. now apply (Hst be I).
  - exact NDd.
  - intros [e be] I. apply inner_join_in in I as (Ie & _). cbn [fst].
    now apply Hed.
Qed.

(** X14: when employee ids and department ids are unique, every
    enrollment row belongs to an employee, every employee to a department,
    and no enrollment status is missing, the overdue list has as many rows
    as the KPI block counts overdue, for the same current date. *)
Theorem q_overdue_length_is_overdue_count (now : datetime)
    (employees : list Employee) (benefits_enrollment : list Enrollment)
    (departments : list Department) :
  NoDup (map e_employee_id employees) ->
  NoDup (map d_department_id departments) ->
  (forall be, In be benefits_enrollment ->
     exists e, In e employees /\ e_employee_id e = be_employee_id be) ->
  (forall e, In e employees ->
     exists d, In d departments /\ e_department_id e = d_department_id d) ->
  (forall be, In be benefits_enrollment -> be_enrollment_status be <> None) ->
  len (q_overdue (dt_date now) employees benefits_enrollment departments)
  = overdue_count now benefits_enrollment.
Proof. apply q_overdue_length. Qed.

Lemma q_overdue_length_is_overdue_count_witness :
  len (q_overdue (dt_date a_now) nine_employees nine_enrollments two_departments)
  = overdue_count a_now nine_enrollments.
Proof.
  apply (q_overdue_length_is_overdue_count a_now nine_employees nine_enrollments
           two_departments).
  - repeat constructor; cbn; intuition discriminate.
  - repeat constructor; cbn; intuition discriminate.
  - intros be I. exists (mk_employee (be_employee_id be) 1 "Active").
    split; [|reflexivity]. cbn in I. cbn.
    repeat (destruct I as [I|I]; [subst be; cbn; tauto|]). contradiction.
  - intros e I. exists {| d_department_id := 1; d_department_name := "Finance" |}.
    split; [cbn; tauto|]. cbn in I.
    repeat (destruct I as [I|I]; [subst e; reflexivity|]). contradiction.
  - intros be I. cbn in I.
    repeat (destruct I as [I|I]; [subst be; discriminate|]). contradiction.
Defined.

(* ================================================================== *)
(** * Further properties of the synthetic data *)

Lemma for_each_inv {S A B} (P : list B -> Prop) (l : list A)
    (body : A -> list B -> Gen S (list B)) :
  (forall x acc w, In x l -> P acc -> P (fst (body x acc w))) ->
  forall acc w, P acc -> P (fst (for_each l body acc w)).
Proof.
  induction l as [|x t IH]; intros Hb acc w Pa; [exact Pa|].
  cbn [for_each bind gen_monad].
  pose proof (Hb x acc w (or_introl eq_refl) Pa) as Px.
  destruct (body x acc w) as [acc' w']. cbn [fst] in Px.
  apply IH; [|exact Px]. intros y a v I. apply Hb. now right.
Qed.

Lemma for_each_forall2 {S A B} (Q : A -> B -> Prop)
    (body : A -> list B -> Gen S (list B)) :
  (forall x acc w, exists r, fst (body x acc w) = (acc ++ [r])%list /\ Q x r) ->
  forall l done acc w,
    Forall2 Q done acc ->
    Forall2 Q (done ++ l)%list (fst (for_each l body acc w)).
Proof.
  intros Hb l. induction l as [|x t IH]; intros done acc w F.
  - cbn. now rewrite app_nil_r.
  - cbn [for_each bind gen_monad].
    destruct (Hb x acc w) as (r & E & Qr).
    destruct (body x acc w) as [acc' w']. cbn [fst] in E. subst acc'.
    change (done ++ x :: t)%list with (done ++ [x] ++ t)%list.
    rewrite app_assoc. apply IH. apply Forall2_app; [exact F|].
    repeat constructor. exact Qr.
Qed.

Lemma sequential_ids_snoc (ids : list Z) :
  sequential_ids ids -> sequential_ids (ids ++ [len ids + 1])%list.
Proof.
  unfold sequential_ids, len. intros E.
  rewrite length_app. cbn [List.length].
  rewrite seq_app, map_app. cbn [seq map]. rewrite <- E.
  f_equal. f_equal. lia.
Qed.

Section Generated.
Variable rs : RandomState.
Variable clock : nat -> datetime.

Let T := synthesize rs clock.

(** The stages of one run. *)
Lemma synthesize_stages :
  exists (w1 w2 w3 : World rs),
    t_employees T = fst (gen_employees rs (rs_seed rs SEED, 0%nat))
    /\ t_enrollment T
       = fst (for_each (t_employees T) (enroll_employee rs clock) [] w1)
    /\ t_eligibility T
       = fst (for_each (t_employees T) (eligibility_row rs clock) [] w2)
    /\ t_exceptions T
       = fst (for_each
                (fst (choice rs 0 (map e_employee_id (t_employees T)) 20 false
                        None w3))
                (exception_row rs clock) []
                (snd (choice rs 0 (map e_employee_id (t_employees T)) 20 false
                        None w3))).
Proof.
  unfold T, synthesize, gen_tables. cbn [bind gen_monad].
  destruct (gen_employees rs _) as [employees_df w1].
  destruct (for_each employees_df (enroll_employee rs clock) [] w1)
    as [enrollment_df w2] eqn:E1.
  destruct (for_each employees_df (eligibility_row rs clock) [] w2)
    as [eligibility_df w3] eqn:E2.
  destruct (choice rs 0 (map e_employee_id employees_df) 20 false None w3)
    as [emp_ids w4] eqn:E3.
  destruct (for_each emp_ids (exception_row rs clock) [] w4)
    as [exceptions_df w5] eqn:E4.
  exists w1, w2, w3. cbn [fst snd ret gen_monad t_employees t_enrollment
                          t_eligibility t_exceptions].
  rewrite E1, E2, E3. cbn [fst snd]. rewrite E4. auto.
Qed.

Lemma gen_employees_ids (w : World rs) :
  map e_employee_id (fst (gen_employees rs w)) = map Z.of_nat (seq 1 n_employees)
  /\ Forall (fun e => e_employment_status e <> None) (fst (gen_employees rs w)).
Proof.
  unfold gen_employees, choice. cbn [bind ret gen_monad fst snd].
  draw. draw. draw. draw. split.
  - rewrite map_map. cbn [e_employee_id]. rewrite <- seq_shift, map_map.
    apply map_ext. intros i. f_equal. lia.
  - apply Forall_forall. intros e I. apply in_map_iff in I as (i & E & _).
    subst e. discriminate.
Qed.

(** X15: whatever the random draws and the clock, the employees table has
    150 rows with the ids 1 to 150 in order, hence no repeated id, and no
    missing employment status. *)
Theorem synthesize_employee_ids :
  map e_employee_id (t_employees T) = map Z.of_nat (seq 1 150)
  /\ NoDup (map e_employee_id (t_employees T))
  /\ len (t_employees T) = 150
  /\ Forall (fun e => e_employment_status e <> None) (t_employees T).
Proof.
  destruct synthesize_stages as (w1 & w2 & w3 & E & _).
  destruct (gen_employees_ids (rs_seed rs SEED, 0%nat)) as (Ids & St).
  rewrite E. split; [exact Ids|]. split; [|split; [|exact St]].
  - rewrite Ids. apply Finite.Injective_map_NoDup.
    + intros a b. apply Nat2Z.inj.
    + apply seq_NoDup.
  - unfold len. rewrite <- (length_map e_employee_id), Ids, length_map, length_seq.
    reflexivity.
Qed.

Lemma eligibility_row_appends (row : Employee) (acc : list Eligibility)
    (w : World rs) :
  exists r, fst (eligibility_row rs clock row acc w) = (acc ++ [r])%list
            /\ eligibility_of row r.
Proof.
  unfold eligibility_row, eligibility_of. cbv zeta.
  destruct (cell_eq (e_employment_status row) "Active");
    unfold now; cbn [bind ret gen_monad fst snd];
    eexists; (split; [reflexivity|]); cbn; repeat split; eauto.
Qed.

(** X16: the eligibility table has one row per employee, in the order of
    the employees table: same id, start date the hire date, and an end date
    and an active flag 0 exactly for the employees that are not Active. *)
Theorem synthesize_eligibility_per_employee :
  Forall2 eligibility_of (t_employees T) (t_eligibility T).
Proof.
  destruct synthesize_stages as (w1 & w2 & w3 & _ & _ & E & _).
  rewrite E.
  apply (for_each_forall2 eligibility_of _ eligibility_row_appends
           (t_employees T) [] [] w2).
  constructor.
Qed.

Lemma enroll_plan_appends (emp_id plan_id : Z) (acc : list Enrollment)
    (w : World rs) :
  exists r, fst (enroll_plan rs clock emp_id plan_id acc w) = (acc ++ [r])%list
            /\ enrollment_dates_ok r
            /\ be_employee_id r = emp_id
            /\ be_enrollment_id r = len acc + 1.
Proof.
  unfold enroll_plan, now, randint, choice1. cbn [bind ret gen_monad fst snd].
  draw. draw. eexists. split; [reflexivity|]. cbn.
  split; [|split; reflexivity].
  eexists. eexists. cbn. repeat split.
Qed.

Lemma enroll_employee_inv (P : list Enrollment -> Prop) (e : Employee) :
  (forall acc r, P acc -> enrollment_dates_ok r ->
     e_employment_status e = Some "Active" ->
     be_employee_id r = e_employee_id e ->
     be_enrollment_id r = len acc + 1 -> P (acc ++ [r])%list) ->
  forall acc w, P acc -> P (fst (enroll_employee rs clock e acc w)).
Proof.
  intros Step acc w Pa. unfold enroll_employee.
  destruct (cell_eq (e_employment_status e) "Active") eqn:A; [|exact Pa].
  apply cell_eq_true in A.
  unfold randint, choice. cbn [bind gen_monad fst snd]. draw. draw.
  apply for_each_inv; [|exact Pa].
  intros plan_id acc' w' _ Pa'.
  destruct (enroll_plan_appends (e_employee_id e) plan_id acc' w')
    as (row & E & D & I & N).
  rewrite E. now apply Step.
Qed.

Lemma synthesize_enrollment_inv (P : list Enrollment -> Prop) :
  P [] ->
  (forall e acc r, In e (t_employees T) -> P acc -> enrollment_dates_ok r ->
     e_employment_status e = Some "Active" ->
     be_employee_id r = e_employee_id e ->
     be_enrollment_id r = len acc + 1 -> P (acc ++ [r])%list) ->
  P (t_enrollment T).
Proof.
  intros P0 Step.
  destruct synthesize_stages as (w1 & w2 & w3 & _ & E & _).
  rewrite E. apply for_each_inv; [|exact P0].
  intros e acc w Ie Pa. apply enroll_employee_inv; [|exact Pa].
  intros acc' r. now apply Step.
Qed.

Lemma synthesize_enrollment_dated :
  Forall enrollment_dates_ok (t_enrollment T).
Proof.
  apply (synthesize_enrollment_inv (Forall enrollment_dates_ok)); [constructor|].
  intros e acc r _ F D _ _ _. apply Forall_app. split; [exact F|].
  now repeat constructor.
Qed.

(** X17: in every generated enrollment row the election deadline is 30
    days after the enrollment date, and the plan start date is set (to 60
    days after the enrollment date) exactly when the row is Enrolled. *)
Theorem synthesize_enrollment_dates :
  Forall enrollment_dates_ok (t_enrollment T).
Proof. exact synthesize_enrollment_dated. Qed.

Lemma synthesize_enrollment_active :
  Forall (enrollment_of_active (t_employees T)) (t_enrollment T).
Proof.
  apply (synthesize_enrollment_inv (Forall (enrollment_of_active (t_employees T))));
    [constructor|].
  intros e acc r Ie F _ A I _. apply Forall_app. split; [exact F|].
  repeat constructor. exists e. auto.
Qed.

(** X18: every generated enrollment row belongs to an employee of the
    employees table whose employment status is Active. *)
Theorem synthesize_enrollment_of_active_employees :
  forall r, In r (t_enrollment T) ->
    exists e, In e (t_employees T) /\ e_employment_status e = Some "Active"
              /\ e_employee_id e = be_employee_id r.
Proof.
  intros r I. exact (proj1 (Forall_forall _ _) synthesize_enrollment_active r I).
Qed.

Lemma exception_row_appends (emp_id : Z) (acc : list ComplianceException)
    (w : World rs) :
  exists x, fst (exception_row rs clock emp_id acc w) = (acc ++ [x])%list
            /\ exception_dates_ok x
            /\ ce_employee_id x = emp_id
            /\ ce_exception_id x = len acc + 1.
Proof.
  unfold exception_row, now, randint, choice1. cbn [bind ret gen_monad fst snd].
  draw. draw. draw. draw.
  match goal with
  | |- context [String.eqb ?s "Resolved"] => destruct (String.eqb s "Resolved") eqn:S
  end; cbn [bind ret gen_monad fst snd].
  - draw. eexists. split; [reflexivity|].
    split; [|split; reflexivity].
    eexists. eexists.
    cbn [ce_exception_date ce_resolution_status ce_resolved_date].
    split; [reflexivity|]. split; [reflexivity|].
    rewrite S. eexists. reflexivity.
  - eexists. split; [reflexivity|].
    split; [|split; reflexivity].
    eexists. eexists.
    cbn [ce_exception_date ce_resolution_status ce_resolved_date].
    split; [reflexivity|]. split; [reflexivity|].
    rewrite S. reflexivity.
Qed.

Lemma synthesize_exceptions_inv (P : list ComplianceException -> Prop) :
  P [] ->
  (forall emp_id acc x,
     (exists w, In emp_id
                  (fst (choice rs 0 (map e_employee_id (t_employees T)) 20 false
                          None w))) ->
     P acc -> exception_dates_ok x -> ce_employee_id x = emp_id ->
     ce_exception_id x = len acc + 1 -> P (acc ++ [x])%list) ->
  P (t_exceptions T).
Proof.
  intros P0 Step.
  destruct synthesize_stages as (w1 & w2 & w3 & _ & _ & _ & E).
  rewrite E. apply for_each_inv; [|exact P0].
  intros emp_id acc w Ie Pa.
  destruct (exception_row_appends emp_id acc w) as (x & Ex & D & I & N).
  rewrite Ex. apply (Step emp_id); eauto.
Qed.

(** X19: the enrollment ids and the exception ids are 1, 2, 3, ... in row
    order. *)
Theorem synthesize_sequential_ids :
  sequential_ids (map be_enrollment_id (t_enrollment T))
  /\ sequential_ids (map ce_exception_id (t_exceptions T)).
Proof.
  split.
  - apply (synthesize_enrollment_inv
             (fun acc => sequential_ids (map be_enrollment_id acc)));
      [reflexivity|].
    intros e acc r _ S _ _ _ N. rewrite map_app. cbn [map]. rewrite N.
    rewrite <- (len_map be_enrollment_id). now apply sequential_ids_snoc.
  - apply (synthesize_exceptions_inv
             (fun acc => sequential_ids (map ce_exception_id acc)));
      [reflexivity|].
    intros emp_id acc x _ S _ _ N. rewrite map_app. cbn [map]. rewrite N.
    rewrite <- (len_map ce_exception_id). now apply sequential_ids_snoc.
Qed.

Lemma exception_row_resolved (emp_id : Z) (acc : list ComplianceException)
    (w : World rs) :
  randint_in_range rs ->
  exists x, fst (exception_row rs clock emp_id acc w) = (acc ++ [x])%list
            /\ resolved_after x.
Proof.
  intros Hr.
  unfold exception_row, now, randint, choice1. cbn [bind ret gen_monad fst snd].
  draw. draw. draw. draw.
  match goal with
  | |- context [String.eqb ?s "Resolved"] => destruct (String.eqb s "Resolved") eqn:S
  end; cbn [bind ret gen_monad fst snd].
  - match goal with
    | |- context [rs_randint rs 1 30 ?g] =>
        pose proof (Hr 1 30 g eq_refl) as K; destruct (rs_randint rs 1 30 g) as [k g']
    end.
    cbn [fst snd] in *. eexists. split; [reflexivity|].
    eexists. eexists.
    cbn [ce_exception_date ce_resolution_status ce_resolved_date].
    split; [reflexivity|]. split; [reflexivity|].
    rewrite S. exists k. split; [exact K | reflexivity].
  - eexists. split; [reflexivity|].
    eexists. eexists.
    cbn [ce_exception_date ce_resolution_status ce_resolved_date].
    split; [reflexivity|]. split; [reflexivity|].
    rewrite S. reflexivity.
Qed.

Lemma synthesize_exceptions_resolved :
  randint_in_range rs -> Forall resolved_after (t_exceptions T).
Proof.
  intros Hr.
  destruct synthesize_stages as (w1 & w2 & w3 & _ & _ & _ & E).
  rewrite E. apply for_each_inv; [|constructor].
  intros emp_id acc w _ F.
  destruct (exception_row_resolved emp_id acc w Hr) as (x & Ex & R).
  rewrite Ex. apply Forall_app. split; [exact F|]. now repeat constructor.
Qed.

Lemma synthesize_exceptions_dated :
  Forall exception_dates_ok (t_exceptions T).
Proof.
  apply (synthesize_exceptions_inv (Forall exception_dates_ok)); [constructor|].
  intros emp_id acc x _ F D _ _. apply Forall_app. split; [exact F|].
  now repeat constructor.
Qed.

(** X20: every generated exception has an exception date and a status,
    and its resolved date is set exactly when it is Resolved; when
    [np.random.randint(1, 30)] returns a value from 1 to 29, the resolved
    date is 1 to 29 days after the exception date. *)
Theorem synthesize_exception_dates :
  Forall exception_dates_ok (t_exceptions T)
  /\ (randint_in_range rs -> Forall resolved_after (t_exceptions T)).
Proof.
  split; [exact synthesize_exceptions_dated | exact synthesize_exceptions_resolved].
Qed.

End Generated.

Lemma counter_rs_randint_in_range : randint_in_range counter_rs.
Proof.
  intros lo hi g L. cbn.
  pose proof (Z.mod_pos_bound (Z.of_nat g) (hi - lo)). lia.
Qed.

Lemma synthesize_exception_dates_witness :
  randint_in_range counter_rs
  /\ Forall resolved_after (t_exceptions (synthesize counter_rs clock_a)).
Proof.
  split; [exact counter_rs_randint_in_range|].
  apply (proj2 (synthesize_exception_dates counter_rs clock_a)).
  exact counter_rs_randint_in_range.
Defined.

(* ------------------------------------------------------------------ *)
(** ** C8, concluded: which readings of the clock each table depends on *)

Lemma dated_cons {B} (date : B -> option datetime) (r : B) (t : list B) :
  dated date (r :: t)
  = ((match date r with Some _ => 1 | None => 0 end) + dated date t)%nat.
Proof. unfold dated. cbn [map non_null]. now destruct (date r). Qed.

Lemma dated_app {B} (date : B -> option datetime) (a b : list B) :
  dated date (a ++ b) = (dated date a + dated date b)%nat.
Proof.
  induction a as [|r t IH]; [reflexivity|].
  cbn [app]. rewrite !dated_cons, IH. lia.
Qed.

Lemma dated_all {B} (date : B -> option datetime) (l : list B) :
  Forall (fun r => date r <> None) l -> dated date l = List.length l.
Proof.
  induction 1 as [|r t Hr _ IH]; [reflexivity|].
  rewrite dated_cons, IH. cbn [List.length].
  destruct (date r); [reflexivity | contradiction].
Qed.

Lemma retime_app {B} (date : B -> option datetime) (shift : Z -> B -> B)
    (delta : nat -> Z) (a b : list B) (k : nat) :
  retime date shift delta k (a ++ b)
  = (retime date shift delta k a
     ++ retime date shift delta (k + dated date a) b)%list.
Proof.
  revert k. induction a as [|r t IH]; intros k.
  - cbn. now rewrite Nat.add_0_r.
  - cbn [app retime]. rewrite dated_cons.
    destruct (date r); cbn [app]; rewrite IH.
    + now replace (k + (1 + dated date t))%nat with (S k + dated date t)%nat by lia.
    + reflexivity.
Qed.

Lemma length_retime {B} (date : B -> option datetime) (shift : Z -> B -> B)
    (delta : nat -> Z) (l : list B) (k : nat) :
  List.length (retime date shift delta k l) = List.length l.
Proof.
  revert k. induction l as [|r t IH]; intros k; [reflexivity|].
  cbn [retime]. destruct (date r); cbn [List.length]; now rewrite IH.
Qed.

Lemma len_retime {B} (date : B -> option datetime) (shift : Z -> B -> B)
    (delta : nat -> Z) (l : list B) (k : nat) :
  len (retime date shift delta k l) = len l.
Proof. unfold len. now rewrite length_retime. Qed.

(** A loop whose body appends the retimed rows and reads the clock once per
    dated row does so as a whole. *)
Lemma for_each_retime {S A B} (date : B -> option datetime) (shift : Z -> B -> B)
    (delta : nat -> Z) (k0 : nat)
    (b1 b2 : A -> list B -> Gen (S * nat) (list B)) :
  (forall x acc w, snd w = (k0 + dated date acc)%nat ->
     b2 x (retime date shift delta k0 acc) w
     = (retime date shift delta k0 (fst (b1 x acc w)), snd (b1 x acc w))
     /\ snd (snd (b1 x acc w)) = (k0 + dated date (fst (b1 x acc w)))%nat) ->
  forall l acc w, snd w = (k0 + dated date acc)%nat ->
    for_each l b2 (retime date shift delta k0 acc) w
    = (retime date shift delta k0 (fst (for_each l b1 acc w)),
       snd (for_each l b1 acc w))
    /\ snd (snd (for_each l b1 acc w))
       = (k0 + dated date (fst (for_each l b1 acc w)))%nat.
Proof.
  intros Hb l. induction l as [|x t IH]; intros acc w Hw.
  - cbn. auto.
  - cbn [for_each bind gen_monad].
    destruct (Hb x acc w Hw) as (E & N). rewrite E.
    destruct (b1 x acc w) as [acc' w']. cbn [fst snd] in *. now apply IH.
Qed.

(** The retimed list is the list itself exactly when no reading behind it
    has moved. *)
Lemma retime_fixed_iff {B} (date : B -> option datetime) (shift : Z -> B -> B)
    (delta : nat -> Z) :
  (forall r, shift 0 r = r) ->
  (forall r d, date r <> None -> shift d r = r -> d = 0) ->
  forall l k,
    retime date shift delta k l = l
    <-> forall j, (k <= j < k + dated date l)%nat -> delta j = 0.
Proof.
  intros H0 Hinj l. induction l as [|r t IH]; intros k.
  - split; [|reflexivity]. intros _ j Hj. cbn in Hj. lia.
  - cbn [retime]. rewrite dated_cons. destruct (date r) as [d|] eqn:D.
    + split.
      * intros E. injection E as E1 E2.
        apply Hinj in E1; [|rewrite D; discriminate].
        intros j Hj. destruct (Nat.eq_dec j k) as [->|Nk]; [exact E1|].
        apply (proj1 (IH (S k)) E2). lia.
      * intros Hd. rewrite (Hd k) by lia. rewrite H0. f_equal.
        apply IH. intros j Hj. apply Hd. lia.
    + split.
      * intros E. injection E as E2. intros j Hj.
        apply (proj1 (IH k) E2). lia.
      * intros Hd. f_equal. apply IH. intros j Hj. apply Hd. lia.
Qed.

Lemma shift_date_fixed (d : Z) (c : option datetime) :
  c <> None -> shift_date d c = c -> d = 0.
Proof.
  destruct c as [t|]; [|contradiction]. cbn. intros _ E. injection E. lia.
Qed.

Lemma shift_enrollment_0 (r : Enrollment) : shift_enrollment 0 r = r.
Proof. destruct r. unfold shift_enrollment. cbn. now rewrite !shift_date_0. Qed.

Lemma shift_eligibility_0 (r : Eligibility) : shift_eligibility 0 r = r.
Proof. destruct r. unfold shift_eligibility. cbn. now rewrite !shift_date_0. Qed.

Lemma shift_exception_0 (x : ComplianceException) : shift_exception 0 x = x.
Proof. destruct x. unfold shift_exception. cbn. now rewrite !shift_date_0. Qed.

Lemma shift_enrollment_fixed (r : Enrollment) (d : Z) :
  be_enrollment_date r <> None -> shift_enrollment d r = r -> d = 0.
Proof.
  intros N E. apply (f_equal be_enrollment_date) in E.
  exact (shift_date_fixed d _ N E).
Qed.

Lemma shift_eligibility_fixed (r : Eligibility) (d : Z) :
  el_eligibility_end_date r <> None -> shift_eligibility d r = r -> d = 0.
Proof.
  intros N E. apply (f_equal el_eligibility_end_date) in E.
  exact (shift_date_fixed d _ N E).
Qed.

Lemma shift_exception_fixed (x : ComplianceException) (d : Z) :
  ce_exception_date x <> None -> shift_exception d x = x -> d = 0.
Proof.
  intros N E. apply (f_equal ce_exception_date) in E.
  exact (shift_date_fixed d _ N E).
Qed.

Section Retime.
Variable rs : RandomState.
Variables clock1 clock2 : nat -> datetime.

Let delta (k : nat) : Z := clock2 k - clock1 k.

Lemma enroll_plan_retime (k0 : nat) (emp_id plan_id : Z) (acc : list Enrollment)
    (w : World rs) :
  snd w = (k0 + dated be_enrollment_date acc)%nat ->
  enroll_plan rs clock2 emp_id plan_id
    (retime be_enrollment_date shift_enrollment delta k0 acc) w
  = (retime be_enrollment_date shift_enrollment delta k0
       (fst (enroll_plan rs clock1 emp_id plan_id acc w)),
     snd (enroll_plan rs clock1 emp_id plan_id acc w))
  /\ snd (snd (enroll_plan rs clock1 emp_id plan_id acc w))
     = (k0 + dated be_enrollment_date
               (fst (enroll_plan rs clock1 emp_id plan_id acc w)))%nat.
Proof.
  intros Hw. unfold enroll_plan, now, randint, choice1.
  cbn [bind ret gen_monad fst snd]. draw. draw.
  rewrite retime_app, dated_app, len_retime, <- Hw.
  cbn [retime dated map non_null List.length be_enrollment_date].
  split; [|lia]. f_equal. f_equal. f_equal.
  unfold shift_enrollment, shift_date, delta. cbn.
  destruct (String.eqb _ "Enrolled"); cbn; shifted_dates.
Qed.

Lemma enroll_employee_retime (k0 : nat) (e : Employee) (acc : list Enrollment)
    (w : World rs) :
  snd w = (k0 + dated be_enrollment_date acc)%nat ->
  enroll_employee rs clock2 e
    (retime be_enrollment_date shift_enrollment delta k0 acc) w
  = (retime be_enrollment_date shift_enrollment delta k0
       (fst (enroll_employee rs clock1 e acc w)),
     snd (enroll_employee rs clock1 e acc w))
  /\ snd (snd (enroll_employee rs clock1 e acc w))
     = (k0 + dated be_enrollment_date
               (fst (enroll_employee rs clock1 e acc w)))%nat.
Proof.
  intros Hw. unfold enroll_employee.
  destruct (cell_eq (e_employment_status e) "Active"); [|cbn; auto].
  unfold randint, choice. cbn [bind gen_monad fst snd].
  draw. draw.
  apply (for_each_retime be_enrollment_date shift_enrollment delta k0
           (enroll_plan rs clock1 (e_employee_id e))
           (enroll_plan rs clock2 (e_employee_id e))).
  - intros x acc' w'. apply enroll_plan_retime.
  - exact Hw.
Qed.

Lemma eligibility_row_retime (k0 : nat) (row : Employee) (acc : list Eligibility)
    (w : World rs) :
  snd w = (k0 + dated el_eligibility_end_date acc)%nat ->
  eligibility_row rs clock2 row
    (retime el_eligibility_end_date shift_eligibility delta k0 acc) w
  = (retime el_eligibility_end_date shift_eligibility delta k0
       (fst (eligibility_row rs clock1 row acc w)),
     snd (eligibility_row rs clock1 row acc w))
  /\ snd (snd (eligibility_row rs clock1 row acc w))
     = (k0 + dated el_eligibility_end_date
               (fst (eligibility_row rs clock1 row acc w)))%nat.
Proof.
  intros Hw. unfold eligibility_row. cbv zeta.
  destruct (cell_eq (e_employment_status row) "Active");
    unfold now; cbn [bind ret gen_monad fst snd];
    rewrite retime_app, dated_app, <- Hw;
    cbn [retime dated map non_null List.length el_eligibility_end_date].
  - split; [reflexivity | lia].
  - split; [|lia]. f_equal. f_equal. f_equal.
    unfold shift_eligibility, shift_date, delta. cbn. shifted_dates.
Qed.

Lemma exception_row_retime (k0 : nat) (emp_id : Z)
    (acc : list ComplianceException) (w : World rs) :
  snd w = (k0 + dated ce_exception_date acc)%nat ->
  exception_row rs clock2 emp_id
    (retime ce_exception_date shift_exception delta k0 acc) w
  = (retime ce_exception_date shift_exception delta k0
       (fst (exception_row rs clock1 emp_id acc w)),
     snd (exception_row rs clock1 emp_id acc w))
  /\ snd (snd (exception_row rs clock1 emp_id acc w))
     = (k0 + dated ce_exception_date
               (fst (exception_row rs clock1 emp_id acc w)))%nat.
Proof.
  intros Hw. unfold exception_row, now, randint, choice1.
  cbn [bind ret gen_monad fst snd]. draw. draw. draw. draw.
  destruct (String.eqb _ "Resolved"); cbn [bind ret gen_monad fst snd].
  - draw. rewrite retime_app, dated_app, len_retime, <- Hw.
    cbn [retime dated map non_null List.length ce_exception_date].
    split; [|lia]. f_equal. f_equal. f_equal.
    unfold shift_exception, shift_date, delta. cbn. shifted_dates.
  - rewrite retime_app, dated_app, len_retime, <- Hw.
    cbn [retime dated map non_null List.length ce_exception_date].
    split; [|lia]. f_equal. f_equal. f_equal.
    unfold shift_exception, shift_date, delta. cbn. shifted_dates.
Qed.

(** Drawing from the random state does not read the clock. *)
Lemma choice_reads {A} (d : A) (a : list A) (size : nat) (replace : bool)
    (p : option (list Q)) (w : World rs) :
  snd (snd (choice rs d a size replace p w)) = snd w.
Proof. unfold choice. now destruct (rs_choice rs _ _ _ _ _). Qed.

Lemma gen_employees_reads (w : World rs) :
  snd (snd (gen_employees rs w)) = snd w.
Proof.
  unfold gen_employees, choice. cbn [bind ret gen_monad fst snd].
  draw. draw. draw. draw. reflexivity.
Qed.

(** A second run produces the first run's tables retimed by the difference
    of the two clocks, reads the clock as often, and ends in the same random
    state; the clock is read once for every dated row. *)
Lemma gen_tables_retime :
  gen_tables rs clock2 (rs_seed rs SEED, 0%nat)
  = (retime_tables delta (fst (gen_tables rs clock1 (rs_seed rs SEED, 0%nat))),
     snd (gen_tables rs clock1 (rs_seed rs SEED, 0%nat)))
  /\ snd (snd (gen_tables rs clock1 (rs_seed rs SEED, 0%nat)))
     = (enrollment_reads (synthesize rs clock1)
        + eligibility_reads (synthesize rs clock1)
        + exception_reads (synthesize rs clock1))%nat.
Proof.
  unfold synthesize, gen_tables. cbn [bind gen_monad].
  pose proof (gen_employees_reads (rs_seed rs SEED, 0%nat)) as C0.
  unfold World in *.
  destruct (gen_employees rs _) as [employees_df w1]. cbn [snd] in C0.
  destruct (for_each_retime be_enrollment_date shift_enrollment delta 0
              (enroll_employee rs clock1) (enroll_employee rs clock2)
              (enroll_employee_retime 0) employees_df [] w1 C0) as (E1 & N1).
  cbn [retime] in E1. rewrite E1. clear E1.
  match goal with
  | |- context [@for_each ?S _ _ employees_df (enroll_employee rs clock1) [] w1] =>
      destruct (@for_each S _ _ employees_df (enroll_employee rs clock1) [] w1)
        as [enrollment_df w2]
  end. cbn [fst snd] in *.
  destruct (for_each_retime el_eligibility_end_date shift_eligibility delta
              (snd w2)
              (eligibility_row rs clock1) (eligibility_row rs clock2)
              (eligibility_row_retime (snd w2)) employees_df [] w2
              (eq_sym (Nat.add_0_r _))) as (E2 & N2).
  cbn [retime] in E2. rewrite E2. clear E2.
  match goal with
  | |- context [@for_each ?S _ _ employees_df (eligibility_row rs clock1) [] w2] =>
      destruct (@for_each S _ _ employees_df (eligibility_row rs clock1) [] w2)
        as [eligibility_df w3]
  end. cbn [fst snd] in *.
  pose proof (choice_reads 0 (map e_employee_id employees_df) 20 false None w3)
    as C3.
  destruct (choice rs 0 (map e_employee_id employees_df) 20 false None w3)
    as [emp_ids w4]. cbn [snd] in C3.
  destruct (for_each_retime ce_exception_date shift_exception delta
              (snd w4)
              (exception_row rs clock1) (exception_row rs clock2)
              (exception_row_retime (snd w4)) emp_ids [] w4
              (eq_sym (Nat.add_0_r _))) as (E3 & N3).
  cbn [retime] in E3. rewrite E3. clear E3.
  match goal with
  | |- context [@for_each ?S _ _ emp_ids (exception_row rs clock1) [] w4] =>
      destruct (@for_each S _ _ emp_ids (exception_row rs clock1) [] w4)
        as [exceptions_df w5]
  end. cbn [fst snd ret gen_monad] in *.
  unfold retime_tables, enrollment_reads, eligibility_reads, exception_reads.
  cbn [t_employees t_departments t_plans t_enrollment t_eligibility t_exceptions].
  rewrite N3, C3, N2, N1. cbn [Nat.add]. auto.
Qed.

End Retime.

Lemma synthesize_retime (rs : RandomState) (clock1 clock2 : nat -> datetime) :
  synthesize rs clock2
  = retime_tables (fun k => clock2 k - clock1 k) (synthesize rs clock1).
Proof.
  unfold synthesize at 1.
  now rewrite (proj1 (gen_tables_retime rs clock1 clock2)).
Qed.

(** The clock is read as often whatever it shows. *)
Lemma clock_reads_tables (rs : RandomState) (clock : nat -> datetime) :
  clock_reads rs
  = (enrollment_reads (synthesize rs clock) + eligibility_reads (synthesize rs clock)
     + exception_reads (synthesize rs clock))%nat.
Proof.
  unfold clock_reads.
  rewrite <- (proj2 (gen_tables_retime rs clock clock)).
  now rewrite (proj1 (gen_tables_retime rs clock (fun _ => 0))).
Qed.

Lemma synthesize_reads_per_row (rs : RandomState) (clock : nat -> datetime) :
  enrollment_reads (synthesize rs clock)
  = List.length (t_enrollment (synthesize rs clock))
  /\ exception_reads (synthesize rs clock)
     = List.length (t_exceptions (synthesize rs clock)).
Proof.
  split; apply dated_all.
  - eapply Forall_impl; [|apply synthesize_enrollment_dated].
    intros r (d & s & E & _). rewrite E. discriminate.
  - eapply Forall_impl; [|apply synthesize_exceptions_dated].
    intros x (d & s & E & _). rewrite E. discriminate.
Qed.

Lemma table_fixed_iff {B} (date : B -> option datetime) (shift : Z -> B -> B)
    (clock1 clock2 : nat -> datetime) (k : nat) (l l2 : list B) :
  (forall r, shift 0 r = r) ->
  (forall r d, date r <> None -> shift d r = r -> d = 0) ->
  l2 = retime date shift (fun j => clock2 j - clock1 j) k l ->
  l = l2 <-> forall j, (k <= j < k + dated date l)%nat -> clock1 j = clock2 j.
Proof.
  intros H0 Hinj ->. split.
  - intros E j Hj. symmetry in E.
    pose proof (proj1 (retime_fixed_iff date shift _ H0 Hinj l k) E j Hj) as D.
    cbn beta in D. lia.
  - intros Hc. symmetry. apply (retime_fixed_iff date shift _ H0 Hinj).
    intros j Hj. cbn beta. rewrite (Hc j Hj). lia.
Qed.

(** C8, as the code has it.  The employees, departments and plans tables
    are the same in any two runs.  The enrollment, eligibility and
    exceptions tables hold dates computed from [datetime.now()], which the
    generator calls once per enrollment row, once per eligibility row with an
    end date and once per exception row: each of these tables is the same in
    two runs exactly when both runs read the same values at the calls made
    for it, and all six tables are the same exactly when both runs read the
    same values at every call.  A generator that returns as many elements as
    asked makes 20 of these calls for the exceptions table, so two runs that
    read another value at every call never produce the same tables. *)
Theorem synthesize_deterministic_given_clock
    (rs : RandomState) (clock1 clock2 : nat -> datetime) :
  t_employees (synthesize rs clock1) = t_employees (synthesize rs clock2)
  /\ t_departments (synthesize rs clock1) = t_departments (synthesize rs clock2)
  /\ t_plans (synthesize rs clock1) = t_plans (synthesize rs clock2)
  /\ (synthesize rs clock1 = synthesize rs clock2
      <-> forall k, (k < clock_reads rs)%nat -> clock1 k = clock2 k)
  /\ (t_enrollment (synthesize rs clock1) = t_enrollment (synthesize rs clock2)
      <-> forall k, (k < enrollment_reads (synthesize rs clock1))%nat ->
            clock1 k = clock2 k)
  /\ (t_eligibility (synthesize rs clock1) = t_eligibility (synthesize rs clock2)
      <-> forall k,
            (enrollment_reads (synthesize rs clock1) <= k
             < enrollment_reads (synthesize rs clock1)
               + eligibility_reads (synthesize rs clock1))%nat ->
            clock1 k = clock2 k)
  /\ (t_exceptions (synthesize rs clock1) = t_exceptions (synthesize rs clock2)
      <-> forall k,
            (enrollment_reads (synthesize rs clock1)
             + eligibility_reads (synthesize rs clock1) <= k
             < clock_reads rs)%nat ->
            clock1 k = clock2 k)
  /\ clock_reads rs
     = (enrollment_reads (synthesize rs clock1)
        + eligibility_reads (synthesize rs clock1)
        + exception_reads (synthesize rs clock1))%nat
  /\ enrollment_reads (synthesize rs clock1)
     = List.length (t_enrollment (synthesize rs clock1))
  /\ exception_reads (synthesize rs clock1)
     = List.length (t_exceptions (synthesize rs clock1))
  /\ (choice_has_size rs ->
      exception_reads (synthesize rs clock1) = 20%nat
      /\ ((forall k, clock1 k <> clock2 k) ->
          t_exceptions (synthesize rs clock1)
          <> t_exceptions (synthesize rs clock2))).
Proof.
  destruct (synthesize_clock_free_tables rs clock1) as (E1 & D1 & P1).
  destruct (synthesize_clock_free_tables rs clock2) as (E2 & D2 & P2).
  pose proof (synthesize_retime rs clock1 clock2) as R.
  pose proof (clock_reads_tables rs clock1) as N.
  destruct (synthesize_reads_per_row rs clock1) as (L1 & L3).
  assert (I1 := table_fixed_iff be_enrollment_date shift_enrollment clock1 clock2
                  0 (t_enrollment (synthesize rs clock1))
                  (t_enrollment (synthesize rs clock2))
                  shift_enrollment_0 shift_enrollment_fixed
                  (f_equal t_enrollment R)).
  assert (I2 := table_fixed_iff el_eligibility_end_date shift_eligibility
                  clock1 clock2 (enrollment_reads (synthesize rs clock1))
                  (t_eligibility (synthesize rs clock1))
                  (t_eligibility (synthesize rs clock2))
                  shift_eligibility_0 shift_eligibility_fixed
                  (f_equal t_eligibility R)).
  assert (I3 := table_fixed_iff ce_exception_date shift_exception
                  clock1 clock2
                  (enrollment_reads (synthesize rs clock1)
                   + eligibility_reads (synthesize rs clock1))
                  (t_exceptions (synthesize rs clock1))
                  (t_exceptions (synthesize rs clock2))
                  shift_exception_0 shift_exception_fixed
                  (f_equal t_exceptions R)).
  fold (enrollment_reads (synthesize rs clock1)) in I1.
  fold (eligibility_reads (synthesize rs clock1)) in I2.
  fold (exception_reads (synthesize rs clock1)) in I3.
  rewrite <- N in I3. cbn [Nat.add] in I1.
  assert (J1 : t_enrollment (synthesize rs clock1) = t_enrollment (synthesize rs clock2)
               <-> forall k, (k < enrollment_reads (synthesize rs clock1))%nat ->
                     clock1 k = clock2 k).
  { rewrite I1. split; intros H k Hk; apply H; lia. }
  split; [congruence|]. split; [congruence|]. split; [congruence|].
  split; [|split; [exact J1|split; [exact I2|split; [exact I3|]]]].
  - split.
    + intros E k Hk.
      destruct (Nat.lt_ge_cases k (enrollment_reads (synthesize rs clock1)))
        as [A|A].
      * apply (proj1 J1 (f_equal t_enrollment E) k A).
      * destruct (Nat.lt_ge_cases k (enrollment_reads (synthesize rs clock1)
                                      + eligibility_reads (synthesize rs clock1)))
          as [B|B].
        -- apply (proj1 I2 (f_equal t_eligibility E) k). lia.
        -- apply (proj1 I3 (f_equal t_exceptions E) k). lia.
    + intros Hc.
      assert (T1 : t_enrollment (synthesize rs clock1)
                   = t_enrollment (synthesize rs clock2))
        by (apply J1; intros k Hk; apply Hc; lia).
      assert (T2 : t_eligibility (synthesize rs clock1)
                   = t_eligibility (synthesize rs clock2))
        by (apply I2; intros k Hk; apply Hc; lia).
      assert (T3 : t_exceptions (synthesize rs clock1)
                   = t_exceptions (synthesize rs clock2))
        by (apply I3; intros k Hk; apply Hc; lia).
      assert (T4 : t_employees (synthesize rs clock1)
                   = t_employees (synthesize rs clock2)) by congruence.
      assert (T5 : t_departments (synthesize rs clock1)
                   = t_departments (synthesize rs clock2)) by congruence.
      assert (T6 : t_plans (synthesize rs clock1)
                   = t_plans (synthesize rs clock2)) by congruence.
      destruct (synthesize rs clock1), (synthesize rs clock2).
      cbn in T1, T2, T3, T4, T5, T6. congruence.
  - split; [exact N|]. split; [exact L1|]. split; [exact L3|].
    intros Hs.
    assert (X : exception_reads (synthesize rs clock1) = 20%nat)
      by (rewrite L3; exact (proj1 (synthesize_exceptions rs clock1 Hs))).
    split; [exact X|].
    intros Hd E.
    apply (Hd (enrollment_reads (synthesize rs clock1)
               + eligibility_reads (synthesize rs clock1))%nat).
    apply (proj1 I3 E). lia.
Qed.

Lemma synthesize_deterministic_given_clock_witness :
  synthesize counter_rs clock_a = synthesize counter_rs clock_c
  /\ clock_a (clock_reads counter_rs) <> clock_c (clock_reads counter_rs).
Proof.
  split.
  - apply (proj1 (proj2 (proj2 (proj2
             (synthesize_deterministic_given_clock counter_rs clock_a clock_c))))).
    intros k Hk. unfold clock_c. apply Nat.ltb_lt in Hk. now rewrite Hk.
  - unfold clock_c. rewrite Nat.ltb_irrefl. unfold clock_a, clock_b.
    unfold usec_per_day. lia.
Defined.

(** X21: running the generator with the clock moved by [delta]
    microseconds gives the same tables with the enrollment, election
    deadline, plan start, eligibility end, exception and resolved dates
    moved by [delta], and nothing else changed. *)
Theorem synthesize_clock_shift (rs : RandomState) (clock : nat -> datetime)
    (delta : Z) :
  synthesize rs (fun k => clock k + delta) = shift_tables delta (synthesize rs clock).
Proof.
  apply (synthesize_shift rs clock (fun k => clock k + delta) delta).
  reflexivity.
Qed.

(** X22: when the generator returns as many elements as asked, the
    exceptions table has 20 rows. *)
Theorem synthesize_exceptions_count (rs : RandomState) (clock : nat -> datetime) :
  choice_has_size rs -> len (t_exceptions (synthesize rs clock)) = 20.
Proof.
  intros Hs. unfold len.
  now rewrite (proj1 (synthesize_exceptions rs clock Hs)).
Qed.

Lemma synthesize_exceptions_count_witness :
  len (t_exceptions (synthesize counter_rs clock_a)) = 20.
Proof.
  apply (synthesize_exceptions_count counter_rs clock_a).
  exact counter_rs_choice_has_size.
Defined.

(** X27: for any generator that returns as many elements as asked, a run
    whose clock is moved by a non-zero amount produces another exceptions
    table. *)
Theorem synthesize_exceptions_depend_on_clock
    (rs : RandomState) (clock : nat -> datetime) (delta : Z) :
  choice_has_size rs -> delta <> 0 ->
  t_exceptions (synthesize rs (fun k => clock k + delta))
  <> t_exceptions (synthesize rs clock).
Proof. apply synthesize_exceptions_move_with_clock. Qed.

Lemma synthesize_exceptions_depend_on_clock_witness :
  choice_has_size counter_rs
  /\ t_exceptions (synthesize counter_rs (fun k => clock_a k + usec_per_day))
     <> t_exceptions (synthesize counter_rs clock_a).
Proof.
  split; [exact counter_rs_choice_has_size|].
  apply (synthesize_exceptions_depend_on_clock counter_rs clock_a usec_per_day).
  - exact counter_rs_choice_has_size.
  - discriminate.
Defined.

Lemma counter_rs_choice_in_range : choice_in_range counter_rs.
Proof.
  intros n size replace p g Hn. cbn. apply Forall_forall.
  intros i I. apply in_map_iff in I as (j & E & _). subst i.
  apply Nat.mod_upper_bound. lia.
Qed.

Lemma choice_in_population (rs : RandomState) (a : list Z) (size : nat)
    (replace : bool) (p : option (list Q)) (w : World rs) (x : Z) :
  choice_in_range rs -> a <> [] ->
  In x (fst (choice rs 0 a size replace p w)) -> In x a.
Proof.
  intros Hr Na. unfold choice.
  assert (Hn : (0 < List.length a)%nat) by (destruct a; cbn; [contradiction | lia]).
  pose proof (Hr (List.length a) (Some size) replace p (fst w) Hn) as F.
  destruct (rs_choice rs (List.length a) (Some size) replace p (fst w)) as [ix g].
  cbn [fst] in *. intros I. apply in_map_iff in I as (i & E & Ii). subst x.
  apply nth_In. exact (proj1 (Forall_forall _ _) F i Ii).
Qed.

(** X23: when the generator draws positions inside the population, every
    generated exception belongs to an employee of the employees table. *)
Theorem synthesize_exceptions_reference_employees
    (rs : RandomState) (clock : nat -> datetime) :
  choice_in_range rs ->
  forall x, In x (t_exceptions (synthesize rs clock)) ->
    exists e, In e (t_employees (synthesize rs clock))
              /\ e_employee_id e = ce_employee_id x.
Proof.
  intros Hr.
  assert (Ne : map e_employee_id (t_employees (synthesize rs clock)) <> []).
  { destruct (synthesize_stages rs clock) as (w1 & w2 & w3 & E & _).
    rewrite E, (proj1 (gen_employees_ids rs _)). discriminate. }
  assert (F : Forall (fun x => In (ce_employee_id x)
                                  (map e_employee_id
                                     (t_employees (synthesize rs clock))))
                     (t_exceptions (synthesize rs clock))).
  { apply (synthesize_exceptions_inv rs clock
             (Forall (fun x => In (ce_employee_id x)
                                  (map e_employee_id
                                     (t_employees (synthesize rs clock))))));
      [constructor|].
    intros emp_id acc x (w & I) Fa _ Ei _. apply Forall_app. split; [exact Fa|].
    repeat constructor. rewrite Ei.
    now apply (choice_in_population rs _ 20%nat false None w). }
  intros x I. pose proof (proj1 (Forall_forall _ _) F x I) as Ix.
  apply in_map_iff in Ix as (e & E & Ie). now exists e.
Qed.

Lemma synthesize_exceptions_reference_employees_witness :
  choice_in_range counter_rs
  /\ exists x, In x (t_exceptions (synthesize counter_rs clock_a))
               /\ exists e, In e (t_employees (synthesize counter_rs clock_a))
                            /\ e_employee_id e = ce_employee_id x.
Proof.
  split; [exact counter_rs_choice_in_range|].
  pose proof (synthesize_exceptions_reference_employees counter_rs clock_a
                counter_rs_choice_in_range) as H.
  destruct (t_exceptions (synthesize counter_rs clock_a)) as [|x l] eqn:E.
  - vm_compute in E. discriminate.
  - exists x. split; [now left|]. apply H. now left.
Defined.

(** X24: on the generated tables the enrollment rate and the overall
    compliance score are percentages (exact arithmetic): every enrolled id
    belongs to an active employee. *)
Theorem synthesize_rates_are_percentages
    (rs : RandomState) (clock : nat -> datetime) (now : datetime) :
  exists q m : Q,
    enrollment_rate (t_employees (synthesize rs clock))
      (t_enrollment (synthesize rs clock)) = Value q
    /\ (0 <= q <= 100)%Q
    /\ overall_compliance_score now (t_employees (synthesize rs clock))
         (t_enrollment (synthesize rs clock)) (t_exceptions (synthesize rs clock))
       = Value m
    /\ (0 <= m <= 100)%Q.
Proof.
  set (T := synthesize rs clock).
  assert (H : forall r, In r (t_enrollment T) ->
              be_enrollment_status r = Some "Enrolled" ->
              exists e, In e (t_employees T)
                        /\ e_employment_status e = Some "Active"
                        /\ e_employee_id e = be_employee_id r).
  { intros r I _.
    exact (proj1 (Forall_forall _ _) (synthesize_enrollment_active rs clock) r I). }
  pose proof (rate_of_percent _ _ (enrolled_within_active _ _ H)) as E.
  eexists. eexists.
  split; [apply enrollment_rate_unfold|]. split; [exact E|].
  split; [apply overall_compliance_score_unfold|].
  pose proof (exception_resolution_rate_bounds (t_exceptions T)) as X.
  assert (B : 0 <= len (t_enrollment T) - overdue_count now (t_enrollment T)
              <= len (t_enrollment T)).
  { pose proof (filter_length_le (overdue_row now) (t_enrollment T)).
    pose proof (len_nonneg (filter (overdue_row now) (t_enrollment T))).
    unfold overdue_count. lia. }
  pose proof (rate_of_percent _ _ B) as D.
  cbn [div add of_int ArithQ]. change (inject_Z 3) with 3%Q. split.
  - apply Qle_shift_div_l; [reflexivity|]. lra.
  - apply Qle_shift_div_r; [reflexivity|]. lra.
Qed.

Lemma synthesize_enrollment_of_active_employees_witness :
  exists r, In r (t_enrollment (synthesize counter_rs clock_a))
            /\ exists e, In e (t_employees (synthesize counter_rs clock_a))
                         /\ e_employment_status e = Some "Active"
                         /\ e_employee_id e = be_employee_id r.
Proof.
  pose proof (synthesize_enrollment_of_active_employees counter_rs clock_a) as H.
  destruct (t_enrollment (synthesize counter_rs clock_a)) as [|r l] eqn:E.
  - vm_compute in E. discriminate.
  - exists r. split; [now left|]. apply H. now left.
Defined.

Lemma one_enrolled_active_ids : lists_active_enrolled two_employees one_enrolled [1].
Proof.
  split.
  - repeat constructor; cbn; tauto.
  - intros i. cbn. split.
    + intros [E|[]]. subst i. split.
      * exists (mk_employee 1 1 "Active"). cbn. tauto.
      * exists (mk_enrollment 1 1 1 None "Enrolled"). cbn. tauto.
    + intros (_ & r & [E|[]] & _ & I). subst r i. cbn. tauto.
Qed.

(** X28: when every Enrolled row belongs to an active employee, the
    enrollment rate is the number of distinct active employees that have an
    Enrolled row, divided by the number of active employees, times 100 (0
    without active employees). *)
Theorem enrollment_rate_of_active_enrollees {R : Type} `{Arith R}
    (employees_df : list Employee) (enrollment_df : list Enrollment)
    (active both : list Z) :
  (forall r, In r enrollment_df -> be_enrollment_status r = Some "Enrolled" ->
     exists e, In e employees_df /\ e_employment_status e = Some "Active"
               /\ e_employee_id e = be_employee_id r) ->
  lists_active employees_df active ->
  lists_active_enrolled employees_df enrollment_df both ->
  enrollment_rate employees_df enrollment_df =
    if len active =? 0 then Value (of_int 0)
    else Value (mul (div (of_int (len both)) (of_int (len active))) (of_int 100)).
Proof.
  intros H1 H2 H3.
  rewrite (enrollment_rate_when_enrolled_are_active _ _ _ _ H1 H2 H3).
  unfold rate_of. destruct (len active =? 0); reflexivity.
Qed.

Lemma enrollment_rate_of_active_enrollees_witness :
  lists_active two_employees [1]
  /\ lists_active_enrolled two_employees one_enrolled [1]
  /\ enrollment_rate (R := Q) two_employees one_enrolled = Value 100%Q.
Proof.
  split; [exact two_employees_active|]. split; [exact one_enrolled_active_ids|].
  rewrite (enrollment_rate_of_active_enrollees (R := Q) two_employees
             one_enrolled [1] [1]).
  - reflexivity.
  - intros r [E|[]] _. subst r. exists (mk_employee 1 1 "Active"). cbn. tauto.
  - exact two_employees_active.
  - exact one_enrolled_active_ids.
Defined.

Lemma gen_employees_departments (rs : RandomState) (w : World rs) :
  choice_has_size rs -> choice_in_range rs ->
  forall e, In e (fst (gen_employees rs w)) ->
    exists d, In d departments_df /\ e_department_id e = d_department_id d.
Proof.
  intros Hs Hr. unfold gen_employees, choice. cbn [bind ret gen_monad fst snd].
  draw. draw.
  match goal with
  | |- context [rs_choice rs ?n (Some ?s) ?r ?p ?g] =>
      pose proof (Hs n s r p g) as L;
      pose proof (Hr n (Some s) r p g ltac:(cbn; lia)) as F;
      destruct (rs_choice rs n (Some s) r p g) as [ix g3]
  end.
  cbn [bind ret gen_monad fst snd] in *. draw.
  intros e I. apply in_map_iff in I as (i & E & Ii). subst e.
  cbn [e_department_id]. apply in_seq in Ii.
  set (f := fun j : nat => nth j (map d_department_id departments_df) 0).
  assert (N : nth i (map f ix) 0 = f (nth i ix 5%nat)).
  { rewrite (nth_indep (map f ix) 0 (f 5%nat)) by (rewrite length_map; lia).
    apply map_nth. }
  rewrite N. unfold f.
  assert (Ij : In (nth i ix 5%nat) ix) by (apply nth_In; lia).
  pose proof (proj1 (Forall_forall _ _) F _ Ij) as Lj. cbn in Lj.
  destruct (nth i ix 5%nat) as [|[|[|[|[|j]]]]]; try lia;
    eexists; (split; [|reflexivity]); cbn; tauto.
Qed.

(** X25: on the generated tables, for a generator that returns as many
    elements as asked and draws positions inside the population, the overdue
    list has exactly as many rows as the KPI block counts overdue, when the
    query's [CURRENT_DATE] is the date of the KPI block's [datetime.now()]
    (the same current date, [dt_date now], on both sides). *)
Theorem synthesize_overdue_list_matches_count
    (rs : RandomState) (clock : nat -> datetime) (now : datetime) :
  choice_has_size rs -> choice_in_range rs ->
  len (q_overdue (dt_date now) (t_employees (synthesize rs clock))
         (t_enrollment (synthesize rs clock))
         (t_departments (synthesize rs clock)))
  = overdue_count now (t_enrollment (synthesize rs clock)).
Proof.
  intros Hs Hr.
  destruct (synthesize_clock_free_tables rs clock) as (E & D & _).
  destruct (gen_employees_ids rs (rs_seed rs SEED, 0%nat)) as (Ids & _).
  apply q_overdue_length.
  - rewrite E, Ids. apply Finite.Injective_map_NoDup.
    + intros a b. apply Nat2Z.inj.
    + apply seq_NoDup.
  - rewrite D. repeat constructor; cbn; intuition discriminate.
  - intros be I.
    destruct (proj1 (Forall_forall _ _) (synthesize_enrollment_active rs clock)
                be I) as (e & Ie & _ & Ee).
    now exists e.
  - intros e I. rewrite D. rewrite E in I.
    now apply (gen_employees_departments rs (rs_seed rs SEED, 0%nat)).
  - intros be I.
    destruct (proj1 (Forall_forall _ _) (synthesize_enrollment_dated rs clock)
                be I) as (d & s & _ & _ & S & _).
    rewrite S. discriminate.
Qed.

Lemma synthesize_overdue_list_matches_count_witness :
  len (q_overdue (dt_date a_now) (t_employees (synthesize counter_rs clock_a))
         (t_enrollment (synthesize counter_rs clock_a))
         (t_departments (synthesize counter_rs clock_a)))
  = overdue_count a_now (t_enrollment (synthesize counter_rs clock_a)).
Proof.
  apply (synthesize_overdue_list_matches_count counter_rs clock_a a_now).
  - exact counter_rs_choice_has_size.
  - exact counter_rs_choice_in_range.
Defined.

Lemma strongly_sorted_prefix {A} (R : A -> A -> Prop) (l : list A) (n : nat) :
  StronglySorted R l ->
  forall x y, In x (firstn n l) -> In y (skipn n l) -> R x y.
Proof.
  intros S. revert n. induction S as [|a t St IH Fa]; intros n x y Ix Iy.
  - rewrite firstn_nil in Ix. contradiction.
  - destruct n as [|n]; [contradiction|]. cbn [firstn skipn] in *.
    destruct Ix as [E|Ix].
    + subst x. apply (proj1 (Forall_forall _ _) Fa).
      rewrite <- (firstn_skipn n t). apply in_or_app. now right.
    + now apply (IH n).
Qed.

(** X26: the report shows at most 25 overdue rows, and they are the ones
    with the earliest election deadlines: no row left out has an earlier
    deadline than a row shown. *)
Theorem report_overdue_earliest (today : Z) (employees : list Employee)
    (benefits_enrollment : list Enrollment) (departments : list Department) :
  let q := q_overdue today employees benefits_enrollment departments in
  len (report_overdue q) = Z.min 25 (len q)
  /\ forall shown left_out,
       In shown (report_overdue q) -> In left_out (skipn 25 q) ->
       deadline_le (od_election_deadline shown) (od_election_deadline left_out).
Proof.
  cbv zeta. unfold report_overdue, len. split.
  - rewrite length_firstn. lia.
  - apply strongly_sorted_prefix.
    apply (q_overdue_sorted today employees benefits_enrollment departments).
Qed.
